(** * macos-notify-mcp: terminal resolution and notification dispatch

    A shallow embedding of [src/notifier.ts] (class [TmuxNotifier]), of the
    two front ends [src/index.ts] and [src/cli.ts], and of the click
    handling of [MacOSNotifyMCP/main.swift], followed by the properties
    of the specification proved (or refuted) on that embedding.

    Conventions of the embedding.
    - A JavaScript string is a [string] (a sequence of bytes); white space
      is the ASCII white space (code points 9-13 and 32).
    - A JavaScript number is [JSNum]: an exact integer or [NaN].  The
      numbers of the program are process ids and epoch seconds; the
      model agrees with the doubles of JavaScript on the integers of
      absolute value below 2^53, which [toString] prints in full.
    - [process.env] is a [gmap string string].
    - Every external process is answered by an [Oracle], a function of the
      calls made so far and of the call being made; the state threaded
      through the program is the chronological list of the calls spawned.
    - A rejected promise or a thrown exception is the left injection of
      the result of a computation of the monad [M].
    - The [git] commands of the default-title resolver, which the
      constructor starts and does not await, run beside the calls
      modelled here and are not recorded in that list. *)

From Stdlib Require Import Ascii String ZArith DecimalString.
From stdpp Require Import base strings gmap list.

Local Open Scope string_scope.
Local Open Scope list_scope.

(** ** JavaScript strings and numbers *)

Module JS.

Definition nl : string := String "010"%char "".
Definition dq : string := String "034"%char "".

(** White space of [String.prototype.trim] and of the regular
    expression class [\s], restricted to ASCII. *)
Definition is_ws (c : ascii) : bool :=
  let n := nat_of_ascii c in
  (Nat.leb 9 n && Nat.leb n 13) || Nat.eqb n 32.

Fixpoint trimStart (s : string) : string :=
  match s with
  | String c s' => if is_ws c then trimStart s' else s
  | EmptyString => EmptyString
  end.

Definition trimEnd (s : string) : string :=
  String.rev (trimStart (String.rev s)).

Definition trim (s : string) : string := trimEnd (trimStart s).

Fixpoint startsWith (p s : string) : bool :=
  match p, s with
  | EmptyString, _ => true
  | String a p', String b s' => if Ascii.eqb a b then startsWith p' s' else false
  | String _ _, EmptyString => false
  end.

(** [s.includes(needle)] *)
Fixpoint includes (s needle : string) : bool :=
  startsWith needle s ||
  match s with
  | EmptyString => false
  | String _ s' => includes s' needle
  end.

Definition cons_head (c : ascii) (l : list string) : list string :=
  match l with
  | h :: t => String c h :: t
  | [] => [String c ""]
  end.

(** [s.split(sep)] for a separator of one character. *)
Fixpoint split (sep : ascii) (s : string) : list string :=
  match s with
  | EmptyString => [""]
  | String c s' =>
      if Ascii.eqb c sep then "" :: split sep s' else cons_head c (split sep s')
  end.

(** [s.split(/\s+/)]: the pieces between the maximal runs of white
    space; [inws] tells that the previous character was white space. *)
Fixpoint splitWs_from (inws : bool) (s : string) : list string :=
  match s with
  | EmptyString => [""]
  | String c s' =>
      if is_ws c then
        if inws then splitWs_from true s' else "" :: splitWs_from true s'
      else cons_head c (splitWs_from false s')
  end.

Definition splitWs (s : string) : list string := splitWs_from false s.

(** [arr.join(sep)] *)
Fixpoint join (sep : string) (l : list string) : string :=
  match l with
  | [] => ""
  | [x] => x
  | x :: t => x +:+ sep +:+ join sep t
  end.

(** [arr.filter(Boolean)] on an array of strings. *)
Definition filterBoolean (l : list string) : list string :=
  List.filter (fun s => negb (String.eqb s "")) l.

Inductive JSNum := NaN | Num (z : Z).

Definition digit (radix : Z) (c : ascii) : option Z :=
  let n := Z.of_nat (nat_of_ascii c) in
  let v := if (48 <=? n)%Z && (n <=? 57)%Z then Some (n - 48)%Z
           else if (97 <=? n)%Z && (n <=? 122)%Z then Some (n - 87)%Z
           else if (65 <=? n)%Z && (n <=? 90)%Z then Some (n - 55)%Z
           else None in
  match v with
  | Some d => if (d <? radix)%Z then Some d else None
  | None => None
  end.

(** The longest prefix of digits, read in [radix]; [None] when the
    first character is no digit. *)
Fixpoint digits (radix : Z) (acc : option Z) (s : string) : option Z :=
  match s with
  | EmptyString => acc
  | String c s' =>
      match digit radix c with
      | Some d => digits radix (Some (radix * default 0%Z acc + d)%Z) s'
      | None => acc
      end
  end.

Definition strip_sign (s : string) : bool * string :=
  match s with
  | String "-"%char s' => (true, s')
  | String "+"%char s' => (false, s')
  | _ => (false, s)
  end.

Definition signed (neg : bool) (v : option Z) : JSNum :=
  match v with
  | Some z => Num (if neg then (- z)%Z else z)
  | None => NaN
  end.

Definition drop2 (s : string) : string :=
  match s with
  | String _ (String _ s') => s'
  | _ => ""
  end.

(** [Number.parseInt(s)] without a radix: leading white space, a sign,
    an optional [0x] prefix, then the longest run of digits. *)
Definition parseInt (s : string) : JSNum :=
  let '(neg, body) := strip_sign (trimStart s) in
  if startsWith "0x" body || startsWith "0X" body
  then signed neg (digits 16 None (drop2 body))
  else signed neg (digits 10 None body).

Fixpoint all_digits (s : string) : bool :=
  match s with
  | EmptyString => true
  | String c s' => match digit 10 c with Some _ => all_digits s' | None => false end
  end.

(** [Number(x)] for [x] a string or [undefined].  Only the integer
    literals in decimal are recognised; a literal with a fraction, an
    exponent or a radix prefix, and [Infinity], are outside the
    integers of [JSNum] and are read as [NaN] here. *)
Definition Number_of (x : option string) : JSNum :=
  match x with
  | None => NaN
  | Some s =>
      let t := trim s in
      if String.eqb t "" then Num 0
      else
        let '(neg, body) := strip_sign t in
        if negb (String.eqb body "") && all_digits body
        then signed neg (digits 10 None body)
        else NaN
  end.

(** [a > b] on numbers: false as soon as one side is [NaN]. *)
Definition gt (a b : JSNum) : bool :=
  match a, b with
  | Num x, Num y => (y <? x)%Z
  | _, _ => false
  end.

(** [n.toString()] *)
Definition toString (n : JSNum) : string :=
  match n with
  | NaN => "NaN"
  | Num z => NilZero.string_of_int (Z.to_int z)
  end.

(** Truthiness of a number ([!n] is its negation). *)
Definition truthyNum (n : JSNum) : bool :=
  match n with
  | NaN => false
  | Num z => negb (z =? 0)%Z
  end.

(** Truthiness of a value that is a string or [undefined]. *)
Definition truthy (x : option string) : bool :=
  match x with
  | Some s => negb (String.eqb s "")
  | None => false
  end.

End JS.

(** ** External processes and exceptions *)

Module Proc.

(** One spawned process: the program and its arguments. *)
Record Call := mkCall { program : string; arguments : list string }.

#[global] Instance Call_eq_dec : EqDecision Call.
Proof. solve_decision. Defined.

(** What the child process did: it closed with an exit code ([None]
    when a signal ended it) and the two captured streams, or it could
    not be launched. *)
Inductive ProcResult :=
| Closed (code : option Z) (stdout stderr : string)
| SpawnFailed (message : string).

(** The outside world: the answer to a call, given the calls made
    before it. *)
Definition Oracle : Type := list Call -> Call -> ProcResult.

Inductive JsError :=
| CommandError (message : string) (code : option Z) (stderr stdout : string)
| Error (message : string)
| TypeError (message : string).

Definition error_message (e : JsError) : string :=
  match e with
  | CommandError m _ _ _ => m
  | Error m => m
  | TypeError m => m
  end.

(** Computations that spawn processes and may throw. *)
Definition M (A : Type) : Type := list Call -> (JsError + A) * list Call.

Definition ret {A} (a : A) : M A := fun tr => (inr a, tr).

Definition bind {A B} (m : M A) (k : A -> M B) : M B :=
  fun tr =>
    match m tr with
    | (inr a, tr') => k a tr'
    | (inl e, tr') => (inl e, tr')
    end.

Definition throw {A} (e : JsError) : M A := fun tr => (inl e, tr).

(** [try { m } catch (e) { h e }] *)
Definition try_catch {A} (m : M A) (h : JsError -> M A) : M A :=
  fun tr =>
    match m tr with
    | (inr a, tr') => (inr a, tr')
    | (inl e, tr') => h e tr'
    end.

(** The value of a synchronous expression that may throw. *)
Definition lift {A} (r : JsError + A) : M A := fun tr => (r, tr).

End Proc.

Declare Scope proc_scope.
Delimit Scope proc_scope with proc.
Notation "x <- m ;; k" := (Proc.bind m (fun x => k))
  (at level 100, m at next level, right associativity) : proc_scope.
Notation "m ;;; k" := (Proc.bind m (fun _ => k))
  (at level 100, right associativity) : proc_scope.

(** ** src/notifier.ts *)

Module Notifier.
Import JS Proc.
Local Open Scope proc_scope.

Inductive TerminalType := VSCode | Cursor | iTerm2 | Terminal | alacritty | Unknown.

(** The string of the union type's member. *)
Definition terminalName (t : TerminalType) : string :=
  match t with
  | VSCode => "VSCode"
  | Cursor => "Cursor"
  | iTerm2 => "iTerm2"
  | Terminal => "Terminal"
  | alacritty => "alacritty"
  | Unknown => "Unknown"
  end.

Record NotificationOptions := {
  title : option string;
  message : string;
  sound : option string;
  session : option string;
  window : option string;
  pane : option string
}.

Record TmuxInfo := { ti_session : string; ti_window : string; ti_pane : string }.

(** The fields of a [TmuxNotifier].  [defaultTitle] is written by
    [initializeDefaultTitle], which the constructor starts and does
    not await: a call reads whatever the field holds by then. *)
Record TmuxNotifier := { appPath : string; defaultTitle : string }.

(** [path.join]: the non-empty segments separated by a slash, and a
    dot for an empty result.  Node also normalises the result
    (dot segments, repeated separators), which changes neither the
    file named nor the emptiness of the string. *)
Definition pathJoin (segments : list string) : string :=
  let s := join "/" (filterBoolean segments) in
  if String.eqb s "" then "." else s.

Section Constructor.
(** [dirname(fileURLToPath(import.meta.url))], [process.cwd()] and
    [existsSync]. *)
Variables (moduleDir cwd : string) (existsSync : string -> bool).

(** Relative to the package installation, and the development path. *)
Definition packagePath : string :=
  pathJoin [moduleDir; ".."; "MacOSNotifyMCP"; "MacOSNotifyMCP.app"].

Definition developmentPath : string :=
  pathJoin [cwd; "MacOSNotifyMCP"; "MacOSNotifyMCP.app"].

Definition possiblePaths : list string := [packagePath; developmentPath].

Definition constructor (customAppPath : option string) : TmuxNotifier :=
  let path :=
    if truthy customAppPath then default "" customAppPath
    else
      let found := default "" (List.find existsSync possiblePaths) in
      if truthy (Some found) then found else packagePath in
  {| appPath := path; defaultTitle := "macos-notify-mcp" |}.
End Constructor.

Section Methods.
(** [process.env], [process.pid] and the outside world. *)
Variables (env : gmap string string) (pid : Z) (world : Oracle).

(** The settlement of the promise of [runCommand]: resolved with the
    captured output on exit code 0, rejected otherwise. *)
Definition settle (command : string) (args : list string) (r : ProcResult)
    : JsError + string :=
  match r with
  | Closed code stdout stderr =>
      match code with
      | Some 0%Z => inr stdout
      | _ =>
          inl (CommandError
                 ("Command failed: " +:+ command +:+ " " +:+ join " " args
                    +:+ nl +:+ stderr)
                 code stderr stdout)
      end
  | SpawnFailed m => inl (Error m)
  end.

(** What [runCommand] yields when it is called after the calls [tr]. *)
Definition outcome (command : string) (args : list string) (tr : list Call)
    : JsError + string :=
  settle command args (world tr (mkCall command args)).

Definition runCommand (command : string) (args : list string) : M string :=
  fun tr => (outcome command args tr, tr ++ [mkCall command args]).

Record Client := { tty : string; client_session : option string; activity : JSNum }.

Record ActiveClientInfo :=
  { aci_tty : string; aci_session : option string; aci_activity : string }.

(** The arrow function mapped over the lines of [list-clients]. *)
Definition parseClient (line : string) : Client :=
  let parts := split "|" line in
  {| tty := default "" (parts !! 0%nat);
     client_session := parts !! 1%nat;
     activity := Number_of (parts !! 2%nat) |}.

(** [arr.reduce(f)] without an initial value. *)
Definition reduce {A} (f : A -> A -> A) (arr : list A) : JsError + A :=
  match arr with
  | [] => inl (TypeError "Reduce of empty array with no initial value")
  | x :: rest => inr (fold_left f rest x)
  end.

Definition moreRecent (prev curr : Client) : Client :=
  if gt (activity curr) (activity prev) then curr else prev.

(** The array [clients] computed from the output of [list-clients]. *)
Definition clientsOf (clientsOutput : string) : list Client :=
  map parseClient (filterBoolean (split "010" (trim clientsOutput))).

Definition displayArgs (format : string) : list string :=
  ["display-message"; "-p"; format].

Definition listClientsArgs (target : string) : list string :=
  ["list-clients"; "-t"; target; "-F";
   "#{client_tty}|#{client_session}|#{client_activity}"].

Definition tmuxDisplay (format : string) : M string :=
  runCommand "tmux" (displayArgs format).

Definition getActiveClientInfo : M (option ActiveClientInfo) :=
  try_catch
    (currentSession <-
       (if truthy (env !! "TMUX_PANE")
        then (s <- tmuxDisplay "#{session_name}";; ret (Some s))
        else ret None);;
     if negb (truthy currentSession) then ret None
     else
       clientsOutput <-
         runCommand "tmux" (listClientsArgs (trim (default "" currentSession)));;
       activeClient <- lift (reduce moreRecent (clientsOf clientsOutput));;
       ret (Some {| aci_tty := tty activeClient;
                    aci_session := client_session activeClient;
                    aci_activity := toString (activity activeClient) |}))
    (fun _ => ret None).

(** The chain of [includes] tests of [detectTerminalFromClient]. *)
Definition clientCommandTerminal (command : string) : option TerminalType :=
  if includes command "Cursor" then Some Cursor
  else if includes command "Code" then Some VSCode
  else if includes command "iTerm2" then Some iTerm2
  else if includes command "Terminal" then Some Terminal
  else if includes command "alacritty" then Some alacritty
  else None.

(** The [for] loop over the lines of [lsof]; [Some] is a [return]
    from inside the loop. *)
Fixpoint lsofLoop (lines : list string) : M (option TerminalType) :=
  match lines with
  | [] => ret None
  | line :: rest =>
      let parts := splitWs line in
      if Nat.ltb (length parts) 2 then lsofLoop rest
      else
        psOutput <- runCommand "ps" ["-p"; default "" (parts !! 1%nat); "-o"; "comm="];;
        match clientCommandTerminal (trim psOutput) with
        | Some t => ret (Some t)
        | None => lsofLoop rest
        end
  end.

Definition detectTerminalFromClient (clientTty : string) : M TerminalType :=
  r <- try_catch
         (lsofOutput <- runCommand "lsof" [clientTty];;
          lsofLoop (drop 1 (split "010" (trim lsofOutput))))
         (fun _ => ret None);;
  ret (default Unknown r).

(** Steps 1 to 5 of [detectTerminalEmulator]: the environment. *)
Definition envTerminal : option TerminalType :=
  if truthy (env !! "CURSOR_TRACE_ID") then Some Cursor
  else if truthy (env !! "VSCODE_IPC_HOOK_CLI") then
    if includes (default "" (env !! "VSCODE_IPC_HOOK_CLI")) "Cursor"
    then Some Cursor else Some VSCode
  else if truthy (env !! "VSCODE_REMOTE") || truthy (env !! "VSCODE_PID")
  then Some VSCode
  else if truthy (env !! "ALACRITTY_WINDOW_ID") || truthy (env !! "ALACRITTY_SOCKET")
  then Some alacritty
  else if truthy (env !! "TERM_PROGRAM") then
    if String.eqb (default "" (env !! "TERM_PROGRAM")) "iTerm.app" then Some iTerm2
    else if String.eqb (default "" (env !! "TERM_PROGRAM")) "Apple_Terminal"
    then Some Terminal
    else if String.eqb (default "" (env !! "TERM_PROGRAM")) "alacritty"
    then Some alacritty
    else None
  else None.

(** Step 6, inside [if (process.env.TMUX)]. *)
Definition tmuxTerminal : M (option TerminalType) :=
  try_catch
    (clientInfo <- getActiveClientInfo;;
     detected <-
       match clientInfo with
       | Some info =>
           t <- detectTerminalFromClient (aci_tty info);;
           ret (match t with Unknown => None | _ => Some t end)
       | None => ret None
       end;;
     match detected with
     | Some t => ret (Some t)
     | None =>
         clientTerm <- tmuxDisplay "#{client_termname}";;
         if includes clientTerm "iterm" || includes clientTerm "iTerm"
         then ret (Some iTerm2)
         else if includes clientTerm "Apple_Terminal" then ret (Some Terminal)
         else
           try_catch
             (clientEnv <-
                runCommand "tmux" ["show-environment"; "-g"; "TERM_PROGRAM"];;
              if includes clientEnv "TERM_PROGRAM=iTerm.app" then ret (Some iTerm2)
              else if includes clientEnv "TERM_PROGRAM=Apple_Terminal"
              then ret (Some Terminal)
              else ret None)
             (fun _ => ret None)
     end)
    (fun _ => ret None).

(** The chain of [includes] tests of the process-tree walk. *)
Definition treeCommandTerminal (command : string) : option TerminalType :=
  if includes command "Cursor" then Some Cursor
  else if includes command "Code" || includes command "code-insiders"
  then Some VSCode
  else if includes command "iTerm2" then Some iTerm2
  else if includes command "Terminal" then Some Terminal
  else None.

Definition maxDepth : nat := 10.

Definition psArgs (currentPid : Z) : list string :=
  ["-p"; toString (Num currentPid); "-o"; "ppid=,comm="].

(** [const [ppidStr, command] = psOutput.trim().split(/\s+/, 2)] *)
Definition psFields (psOutput : string) : string * option string :=
  let parts := take 2 (splitWs (trim psOutput)) in
  (default "" (parts !! 0%nat), parts !! 1%nat).

(** The [for] loop of the process-tree walk, with [fuel] iterations
    left; [Some] is a [return] from inside the loop, [None] a
    [break] or the end of the loop. *)
Fixpoint processTreeLoop (fuel : nat) (currentPid : Z) : M (option TerminalType) :=
  match fuel with
  | O => ret None
  | S fuel' =>
      psOutput <- runCommand "ps" (psArgs currentPid);;
      let '(ppidStr, command) := psFields psOutput in
      match parseInt ppidStr with
      | NaN => ret None
      | Num ppid =>
          if (ppid =? 0)%Z || (ppid =? 1)%Z then ret None
          else
            match
              (if truthy command
               then treeCommandTerminal (default "" command) else None)
            with
            | Some t => ret (Some t)
            | None => processTreeLoop fuel' ppid
            end
      end
  end.

Definition processTreeTerminal : M (option TerminalType) :=
  try_catch (processTreeLoop maxDepth pid) (fun _ => ret None).

Definition detectTerminalEmulator : M TerminalType :=
  match envTerminal with
  | Some t => ret t
  | None =>
      viaTmux <- (if truthy (env !! "TMUX") then tmuxTerminal else ret None);;
      match viaTmux with
      | Some t => ret t
      | None =>
          viaTree <- processTreeTerminal;;
          ret (default Unknown viaTree)
      end
  end.

Definition getCurrentTmuxInfo : M (option TmuxInfo) :=
  try_catch
    (session <- tmuxDisplay "#{session_name}";;
     window <- tmuxDisplay "#{window_index}";;
     pane <- tmuxDisplay "#{pane_index}";;
     ret (Some {| ti_session := trim session;
                  ti_window := trim window;
                  ti_pane := trim pane |}))
    (fun _ => ret None).

Definition listSessions : M (list string) :=
  try_catch
    (output <- runCommand "tmux" ["list-sessions"; "-F"; "#{session_name}"];;
     ret (filterBoolean (split "010" (trim output))))
    (fun _ => ret []).

(** [arr.includes(x)] on an array of strings. *)
Definition arrayIncludes (arr : list string) (x : string) : bool :=
  existsb (String.eqb x) arr.

Definition sessionExists (session : string) : M bool :=
  sessions <- listSessions;;
  ret (arrayIncludes sessions session).

Definition getTerminalEmulator : M TerminalType := detectTerminalEmulator.

(** The [-s], [-w] and [-p] arguments pushed by [sendNotification]. *)
Definition coordinateArgs (options : NotificationOptions) : list string :=
  if truthy (session options) then
    ["-s"; default "" (session options)]
      ++ (if truthy (window options) then ["-w"; default "" (window options)] else [])
      ++ (if truthy (pane options) then ["-p"; default "" (pane options)] else [])
  else [].

(** The argument array handed to [/usr/bin/open]. *)
Definition openArgs (self : TmuxNotifier) (options : NotificationOptions)
    (terminal : TerminalType) : list string :=
  [ "-n"; appPath self; "--args";
    "-t"; default (defaultTitle self) (title options);
    "-m"; message options;
    "--sound"; default "Glass" (sound options);
    "--terminal"; terminalName terminal ]
    ++ coordinateArgs options.

Definition sendNotification (self : TmuxNotifier) (options : NotificationOptions)
    : M unit :=
  if negb (truthy (Some (appPath self)))
  then throw (Error "MacOSNotifyMCP.app not found")
  else
    terminal <- detectTerminalEmulator;;
    runCommand "/usr/bin/open" (openArgs self options terminal) ;;;
    ret tt.

(** The regular expression of [getGitRepoName],
    [/[/:]([\w-]+)\/([\w-]+?)(\.git)?$/], as the backtracking search
    of [String.prototype.match]. *)

(** [\w] *)
Definition is_word (c : ascii) : bool :=
  let n := nat_of_ascii c in
  (Nat.leb 48 n && Nat.leb n 57) || (Nat.leb 65 n && Nat.leb n 90)
  || (Nat.leb 97 n && Nat.leb n 122) || Nat.eqb n 95.

(** [[\w-]] *)
Definition is_name_char (c : ascii) : bool := is_word c || Ascii.eqb c "-".

Definition snoc (s : string) (c : ascii) : string := s +:+ String c "".

(** [(cls+)] followed by the rest [k] of the expression: the longest run
    first, then shorter ones.  [acc] is the text captured so far. *)
Fixpoint greedyPlus (cls : ascii -> bool) (acc : string) (s : string)
    (k : string -> string -> option string) : option string :=
  match s with
  | String c s' =>
      if cls c then
        match greedyPlus cls (snoc acc c) s' k with
        | Some r => Some r
        | None => k (snoc acc c) s'
        end
      else None
  | EmptyString => None
  end.

(** [(cls+?)] followed by [k]: the shortest run first, then longer
    ones. *)
Fixpoint lazyPlus (cls : ascii -> bool) (acc : string) (s : string)
    (k : string -> string -> option string) : option string :=
  match s with
  | String c s' =>
      if cls c then
        match k (snoc acc c) s' with
        | Some r => Some r
        | None => lazyPlus cls (snoc acc c) s' k
        end
      else None
  | EmptyString => None
  end.

(** [(\.git)?$] *)
Definition gitSuffixEnd (s : string) : bool :=
  String.eqb s ".git" || String.eqb s "".

(** A match that starts at the first character of [s]; the result is
    the second group. *)
Definition repoMatchAt (s : string) : option string :=
  match s with
  | String c s1 =>
      if Ascii.eqb c "/" || Ascii.eqb c ":" then
        greedyPlus is_name_char "" s1
          (fun _ r1 =>
             match r1 with
             | String c1 r2 =>
                 if Ascii.eqb c1 "/" then
                   lazyPlus is_name_char "" r2
                     (fun g2 r3 => if gitSuffixEnd r3 then Some g2 else None)
                 else None
             | EmptyString => None
             end)
      else None
  | EmptyString => None
  end.

(** [remoteUrl.match(...)]: the leftmost match; the result is
    [match[2]]. *)
Fixpoint repoMatch (s : string) : option string :=
  match repoMatchAt s with
  | Some r => Some r
  | None =>
      match s with
      | String _ s' => repoMatch s'
      | EmptyString => None
      end
  end.

(** [gitRoot.split('/').pop() || null] *)
Definition lastSegment (gitRoot : string) : option string :=
  let segment := default "" (last (split "/" gitRoot)) in
  if truthy (Some segment) then Some segment else None.

Definition gitRootName : M (option string) :=
  gitRoot <- runCommand "git" ["rev-parse"; "--show-toplevel"];;
  ret (lastSegment (trim gitRoot)).

Definition getGitRepoName : M (option string) :=
  try_catch
    (output <- runCommand "git" ["config"; "--get"; "remote.origin.url"];;
     let remoteUrl := trim output in
     if negb (truthy (Some remoteUrl)) then gitRootName
     else
       match repoMatch remoteUrl with
       | Some name => ret (Some name)
       | None => gitRootName
       end)
    (fun _ => ret None).

(** [initializeDefaultTitle], as the notifier it leaves behind. *)
Definition initializeDefaultTitle (self : TmuxNotifier) : M TmuxNotifier :=
  try_catch
    (repoName <- getGitRepoName;;
     ret (if truthy repoName
          then {| appPath := appPath self; defaultTitle := default "" repoName |}
          else self))
    (fun _ => ret self).

End Methods.

End Notifier.

(** ** MacOSNotifyMCP/main.swift: the payload and the click handler *)

Module MacOSNotifyMCP.
Import JS.

(** The variables filled by the argument loop of the main process. *)
Record Arguments := {
  title : string;
  message : string;
  session : option string;
  window : option string;
  pane : option string;
  sound : string;
  terminal : option string
}.

Definition initial : Arguments :=
  {| title := "Claude Code"; message := ""; session := None; window := None;
     pane := None; sound := "default"; terminal := None |}.

Definition isFlag (a : string) (short long : string) : bool :=
  String.eqb a short || String.eqb a long.

(** The assignment of one [case] of the [switch]; [None] for an
    argument that is no option with a value. *)
Definition assign (flag value : string) (a : Arguments) : option Arguments :=
  if isFlag flag "-t" "--title" then
    Some {| title := value; message := message a; session := session a;
            window := window a; pane := pane a; sound := sound a;
            terminal := terminal a |}
  else if isFlag flag "-m" "--message" then
    Some {| title := title a; message := value; session := session a;
            window := window a; pane := pane a; sound := sound a;
            terminal := terminal a |}
  else if isFlag flag "-s" "--session" then
    Some {| title := title a; message := message a; session := Some value;
            window := window a; pane := pane a; sound := sound a;
            terminal := terminal a |}
  else if isFlag flag "-w" "--window" then
    Some {| title := title a; message := message a; session := session a;
            window := Some value; pane := pane a; sound := sound a;
            terminal := terminal a |}
  else if isFlag flag "-p" "--pane" then
    Some {| title := title a; message := message a; session := session a;
            window := window a; pane := Some value; sound := sound a;
            terminal := terminal a |}
  else if String.eqb flag "--sound" then
    Some {| title := title a; message := message a; session := session a;
            window := window a; pane := pane a; sound := value;
            terminal := terminal a |}
  else if String.eqb flag "--terminal" then
    Some {| title := title a; message := message a; session := session a;
            window := window a; pane := pane a; sound := sound a;
            terminal := Some value |}
  else None.

Definition takesValue (flag : string) : bool :=
  match assign flag "" initial with Some _ => true | None => false end.

(** The [while] loop over [CommandLine.arguments] from index 1 on;
    [None] is the [exit(0)] of the help option.  An option that is the
    last argument is skipped. *)
Fixpoint parseLoop (args : list string) (a : Arguments) : option Arguments :=
  match args with
  | [] => Some a
  | flag :: rest =>
      if takesValue flag then
        match rest with
        | value :: rest' => parseLoop rest' (default a (assign flag value a))
        | [] => Some a
        end
      else if isFlag flag "-h" "--help" then None
      else parseLoop rest a
  end.

Definition parseArguments (argv : list string) : option Arguments :=
  parseLoop (drop 1 argv) initial.

(** [content.userInfo] as built by [sendNotification]. *)
Definition userInfo (a : Arguments) : gmap string string :=
  let tmux : gmap string string :=
    match session a with
    | Some s =>
        let m1 : gmap string string := {[ "session" := s ]} in
        let m2 := match window a with Some w => <[ "window" := w ]> m1 | None => m1 end in
        match pane a with Some p => <[ "pane" := p ]> m2 | None => m2 end
    | None => ∅
    end in
  match terminal a with
  | Some t => <[ "terminal" := t ]> tmux
  | None => tmux
  end.

(** The payload of the notification that the main process posts for the
    argument vector [argv]: none after the help option or without a
    message (the process exits before posting).  The permission to
    notify is taken as granted. *)
Definition postedUserInfo (argv : list string) : option (gmap string string) :=
  match parseArguments argv with
  | Some a => if String.eqb (message a) "" then None else Some (userInfo a)
  | None => None
  end.

(** The argument vector of the executable of the bundle when it is
    started by [/usr/bin/open -n <app> --args ...]. *)
Definition launchedArgv (executable : string) (openArgs : list string) : list string :=
  executable :: drop 3 openArgs.

(** The target of [switch-client] built by [focusToTmux]. *)
Definition tmuxTarget (session : string) (window pane : option string) : string :=
  match window with
  | Some w =>
      match pane with
      | Some p => session +:+ ":" +:+ w +:+ "." +:+ p
      | None => session +:+ ":" +:+ w
      end
  | None => session
  end.

(** The arguments of the [tmux] command that a click issues when the
    payload holds a session and a [tmux] executable is found
    ([userNotificationCenter(_:didReceive:)] calling [focusToTmux]). *)
Definition clickSwitchArgs (info : gmap string string) : option (list string) :=
  match info !! "session" with
  | Some s => Some ["switch-client"; "-t"; tmuxTarget s (info !! "window") (info !! "pane")]
  | None => None
  end.

(** The click handler.  The commands it starts are answered by the same
    kind of oracle as those of the notifier; the two delays of half a
    second are not modelled, only the order of the commands. *)
Section Click.
Import Proc.
Local Open Scope proc_scope.
(** The outside world and [FileManager.default.fileExists(atPath:)]. *)
Variables (world : Oracle) (fileExists : string -> bool).

(** [runCommand(_:args:)]: true when the process ran and ended with
    status 0. *)
Definition runCommand (path : string) (args : list string) : M bool :=
  fun tr =>
    (inr match world tr (mkCall path args) with
         | Closed (Some 0%Z) _ _ => true
         | _ => false
         end, tr ++ [mkCall path args]).

Definition isAppRunning (appName : string) : M bool :=
  runCommand "/usr/bin/pgrep" ["-f"; appName].

Definition terminalMap : gmap string string :=
  {[ "VSCode" := "Visual Studio Code"; "Cursor" := "Cursor"; "iTerm2" := "iTerm2";
     "Terminal" := "Terminal"; "alacritty" := "Alacritty" ]}.

Definition terminals : list string :=
  ["Alacritty"; "iTerm2"; "WezTerm"; "Terminal"; "Visual Studio Code"; "Cursor"].

Definition activateArgs (appName : string) : list string :=
  ["-e"; "tell application " +:+ dq +:+ appName +:+ dq +:+ " to activate"].

Definition activate (appName : string) : M unit :=
  runCommand "/usr/bin/osascript" (activateArgs appName) ;;; ret tt.

(** The loop over [terminals], ending on the default [Terminal]. *)
Fixpoint activateFirstRunning (apps : list string) : M unit :=
  match apps with
  | [] => activate "Terminal"
  | app :: rest =>
      running <- isAppRunning app;;
      if running then activate app else activateFirstRunning rest
  end.

Definition activateTerminal (preferredTerminal : option string) : M unit :=
  match preferredTerminal ≫= (fun preferred => terminalMap !! preferred) with
  | Some appName =>
      running <- isAppRunning appName;;
      if running then activate appName else activateFirstRunning terminals
  | None => activateFirstRunning terminals
  end.

Definition tmuxPaths : list string :=
  ["/opt/homebrew/bin/tmux"; "/usr/local/bin/tmux"; "/usr/bin/tmux"].

(** [findTmuxPath]; the output of [which] is taken as valid UTF-8. *)
Definition findTmuxPath : M string :=
  match List.find fileExists tmuxPaths with
  | Some path => ret path
  | None =>
      fun tr =>
        (inr match world tr (mkCall "/usr/bin/which" ["tmux"]) with
             | Closed (Some 0%Z) output _ => trim output
             | _ => ""
             end, tr ++ [mkCall "/usr/bin/which" ["tmux"]])
  end.

Definition focusToTmux (session : string) (window pane terminal : option string)
    : M unit :=
  activateTerminal terminal ;;;
  (tmuxPath <- findTmuxPath;;
   if String.eqb tmuxPath "" then ret tt
   else runCommand tmuxPath ["switch-client"; "-t"; tmuxTarget session window pane] ;;;
        ret tt).

(** [userNotificationCenter(_:didReceive:withCompletionHandler:)] *)
Definition didReceive (info : gmap string string) : M unit :=
  match info !! "session" with
  | Some session =>
      focusToTmux session (info !! "window") (info !! "pane") (info !! "terminal")
  | None =>
      match info !! "terminal" with
      | Some terminal => activateTerminal (Some terminal)
      | None => ret tt
      end
  end.

End Click.

End MacOSNotifyMCP.

(** ** src/index.ts: the protocol tool handler *)

Module Index.
Import JS Proc Notifier.
#[local] Set Warnings "-register-all".
Local Open Scope proc_scope.

(** A JSON value of the tool arguments; the numbers are the integers. *)
Inductive JValue :=
| JNull
| JBool (b : bool)
| JNumber (n : Z)
| JString (s : string)
| JArray (items : list JValue)
| JObject (fields : list (string * JValue)).

(** Truthiness of a property that may be missing. *)
Definition truthyValue (v : option JValue) : bool :=
  match v with
  | None | Some JNull => false
  | Some (JBool b) => b
  | Some (JNumber n) => negb (n =? 0)%Z
  | Some (JString s) => negb (String.eqb s "")
  | Some (JArray _) | Some (JObject _) => true
  end.

(** [String(v)], for the values on which it returns: an object that has
    an own [toString] property makes [String] throw a [TypeError], which
    is not modelled, and the numbers are taken below 1e21, where their
    digits are printed in full. *)
Fixpoint String_of (v : JValue) : string :=
  match v with
  | JNull => "null"
  | JBool true => "true"
  | JBool false => "false"
  | JNumber n => toString (Num n)
  | JString s => s
  | JArray items =>
      join "," (map (fun x => match x with JNull => "" | _ => String_of x end) items)
  | JObject _ => "[object Object]"
  end.

Definition stringOrUndefined (v : option JValue) : option string :=
  if truthyValue v then String_of <$> v else None.

Section Handler.
Variables (env : gmap string string) (pid : Z) (world : Oracle).
(** The module-level [notifier]. *)
Variable notifier : TmuxNotifier.

Definition withCoordinates (options : NotificationOptions)
    (s w p : option string) : NotificationOptions :=
  {| title := title options; message := message options; sound := sound options;
     session := s; window := w; pane := p |}.

(** The [send_notification] case; the result is the text of the
    single content item returned. *)
Definition send_notification (args : gmap string JValue) : M string :=
  if negb (truthyValue (args !! "message")) then throw (Error "Message is required")
  else
    let options :=
      {| message := default "" (String_of <$> (args !! "message"));
         title := stringOrUndefined (args !! "title");
         sound := stringOrUndefined (args !! "sound");
         session := None; window := None; pane := None |} in
    options <-
      (if truthyValue (args !! "useCurrent") then
         current <- getCurrentTmuxInfo world;;
         match current with
         | Some c =>
             ret (withCoordinates options (Some (ti_session c))
                    (Some (ti_window c)) (Some (ti_pane c)))
         | None => ret options
         end
       else
         ret (withCoordinates options
                (stringOrUndefined (args !! "session"))
                (stringOrUndefined (args !! "window"))
                (stringOrUndefined (args !! "pane"))));;
    let name := default "" (session options) in
    missing <-
      (if truthy (session options) then
         exists_ <- sessionExists world name;;
         if negb exists_ then
           sessions <- listSessions world;;
           ret (Some ("Error: Session '" +:+ name
                        +:+ "' does not exist. Available sessions: "
                        +:+ join ", " sessions))
         else ret None
       else ret None);;
    match missing with
    | Some text => ret text
    | None =>
        sendNotification env pid world notifier options ;;;
        ret ("Notification sent: " +:+ dq +:+ message options +:+ dq
               +:+ (if truthy (session options)
                    then " (tmux: " +:+ name +:+ ")" else ""))
    end.

Definition list_tmux_sessions : M string :=
  sessions <- listSessions world;;
  ret (if Nat.ltb 0 (length sessions)
       then "Available tmux sessions:" +:+ nl
              +:+ join nl (map (fun s => "- " +:+ s) sessions)
       else "No tmux sessions found").

Definition get_current_tmux_info : M string :=
  info <- getCurrentTmuxInfo world;;
  match info with
  | Some i =>
      ret ("Current tmux location:" +:+ nl +:+ "- Session: " +:+ ti_session i
             +:+ nl +:+ "- Window: " +:+ ti_window i
             +:+ nl +:+ "- Pane: " +:+ ti_pane i)
  | None => ret "Not in a tmux session"
  end.

(** The handler of [CallToolRequestSchema]. *)
Definition callTool (name : string) (args : option (gmap string JValue)) : M string :=
  match args with
  | None => throw (Error "No arguments provided")
  | Some args =>
      try_catch
        (if String.eqb name "send_notification" then send_notification args
         else if String.eqb name "list_tmux_sessions" then list_tmux_sessions
         else if String.eqb name "get_current_tmux_info" then get_current_tmux_info
         else throw (Error ("Unknown tool: " +:+ name)))
        (fun error => ret ("Error: " +:+ error_message error))
  end.

End Handler.

End Index.


(** ** src/cli.ts: the command-line front end *)

Module Cli.
Import JS Proc Notifier.
Local Open Scope proc_scope.

(** [options.message] starts as the empty string; an option given as the
    last argument assigns [undefined] to its field. *)
Record CliOptions := {
  message : option string;
  title : option string;
  sound : option string;
  session : option string;
  window : option string;
  pane : option string
}.

(** What the process leaves behind: the code of [process.exit] and the
    lines of [console.log] and [console.error]. *)
Record CliResult := { exitCode : Z; logged : list string; errors : list string }.

Definition usage : string :=
  join nl
    [ "";
      "Usage:";
      "  macos-notify-cli [options]";
      "";
      "Options:";
      "  -m, --message <text>    Notification message (required)";
      "  -t, --title <text>      Notification title (default: " +:+ dq +:+ "Claude Code" +:+ dq +:+ ")";
      "  -s, --session <name>    tmux session name";
      "  -w, --window <number>   tmux window number";
      "  -p, --pane <number>     tmux pane number";
      "  --sound <name>          Notification sound (default: " +:+ dq +:+ "Glass" +:+ dq +:+ ")";
      "  --current-tmux          Use current tmux location";
      "  --list-sessions         List available tmux sessions";
      "  -h, --help              Show this help message";
      "";
      "Examples:";
      "  # Basic notification";
      "  macos-notify-cli -m " +:+ dq +:+ "Build completed" +:+ dq;
      "  ";
      "  # Navigate to specific session";
      "  macos-notify-cli -m " +:+ dq +:+ "Tests passed" +:+ dq +:+ " -s development -w 1 -p 0";
      "  ";
      "  # Use current tmux location";
      "  macos-notify-cli -m " +:+ dq +:+ "Task finished" +:+ dq +:+ " --current-tmux";
      "    " ].

Definition isFlag (a : string) (short long : string) : bool :=
  String.eqb a short || String.eqb a long.

(** The assignment [options.field = args[++i]] of one [case]; [None] for
    an argument that is no option with a value. *)
Definition assign (flag : string) (value : option string) (o : CliOptions)
    : option CliOptions :=
  if isFlag flag "-m" "--message" then
    Some {| message := value; title := title o; sound := sound o;
            session := session o; window := window o; pane := pane o |}
  else if isFlag flag "-t" "--title" then
    Some {| message := message o; title := value; sound := sound o;
            session := session o; window := window o; pane := pane o |}
  else if isFlag flag "-s" "--session" then
    Some {| message := message o; title := title o; sound := sound o;
            session := value; window := window o; pane := pane o |}
  else if isFlag flag "-w" "--window" then
    Some {| message := message o; title := title o; sound := sound o;
            session := session o; window := value; pane := pane o |}
  else if isFlag flag "-p" "--pane" then
    Some {| message := message o; title := title o; sound := sound o;
            session := session o; window := window o; pane := value |}
  else if String.eqb flag "--sound" then
    Some {| message := message o; title := title o; sound := value;
            session := session o; window := window o; pane := pane o |}
  else None.

Definition initialOptions : CliOptions :=
  {| message := Some ""; title := None; sound := None;
     session := None; window := None; pane := None |}.

Definition useCurrent (o : CliOptions) (current : option TmuxInfo) : CliOptions :=
  match current with
  | Some c =>
      {| message := message o; title := title o; sound := sound o;
         session := Some (ti_session c); window := Some (ti_window c);
         pane := Some (ti_pane c) |}
  | None => o
  end.

Definition toNotificationOptions (o : CliOptions) : NotificationOptions :=
  {| Notifier.message := default "" (message o); Notifier.title := title o;
     Notifier.sound := sound o; Notifier.session := session o;
     Notifier.window := window o; Notifier.pane := pane o |}.

Section Main.
Variables (env : gmap string string) (pid : Z) (world : Oracle).
(** [dirname(fileURLToPath(import.meta.url))] of the notifier module,
    [process.cwd()] and [existsSync], read by [new TmuxNotifier()]. *)
Variables (moduleDir cwd : string) (existsSync : string -> bool).

(** The [for] loop over the arguments: [--current-tmux] queries the
    multiplexer where it stands in the argument list. *)
Fixpoint parseLoop (args : list string) (o : CliOptions) : M CliOptions :=
  match args with
  | [] => ret o
  | flag :: rest =>
      match assign flag (head rest) o with
      | Some o' =>
          match rest with
          | _ :: rest' => parseLoop rest' o'
          | [] => ret o'
          end
      | None =>
          if String.eqb flag "--current-tmux" then
            current <- getCurrentTmuxInfo world;;
            parseLoop rest (useCurrent o current)
          else parseLoop rest o
      end
  end.

(** [main]; the notifier keeps the literal default title: the
    repository name that [initializeDefaultTitle] may write meanwhile,
    and the [git] commands it runs for that, are not part of this model.
    For a failed send, [console.error] prints the [Error] object; its
    message stands for that text here. *)
Definition main (argv : list string) : M CliResult :=
  let notifier := constructor moduleDir cwd existsSync None in
  let args := drop 2 argv in
  if arrayIncludes args "--help" || arrayIncludes args "-h" then
    ret {| exitCode := 0; logged := [usage]; errors := [] |}
  else if arrayIncludes args "--list-sessions" then
    sessions <- listSessions world;;
    ret {| exitCode := 0;
           logged := "Available tmux sessions:" :: map (fun s => "  " +:+ s) sessions;
           errors := [] |}
  else
    options <- parseLoop args initialOptions;;
    if negb (truthy (message options)) then
      ret {| exitCode := 1; logged := [];
             errors := ["Error: Message is required (-m option)"] |}
    else
      let name := default "" (session options) in
      exists_ <- (if truthy (session options) then sessionExists world name else ret true);;
      if negb exists_ then
        sessions <- listSessions world;;
        ret {| exitCode := 1;
               logged :=
                 if Nat.ltb 0 (length sessions)
                 then (nl +:+ "Available sessions:") :: map (fun s => "  " +:+ s) sessions
                 else [];
               errors := ["Error: Session '" +:+ name +:+ "' does not exist"] |}
      else
        try_catch
          (sendNotification env pid world notifier (toNotificationOptions options) ;;;
           ret {| exitCode := 0; logged := ["Notification sent successfully"];
                  errors := [] |})
          (fun error =>
             ret {| exitCode := 1; logged := [];
                    errors := ["Failed to send notification: " +:+ error_message error] |}).

End Main.

End Cli.


(** ** Vocabulary of the properties, and the concrete inputs they are
    tried on *)

Module Props.
Import JS Proc Notifier.

(** A computation that returns a value from every state: it never
    throws. *)
Definition total {A} (m : M A) : Prop :=
  forall tr, exists a tr', m tr = (inr a, tr').

Definition TerminalTypes : list TerminalType :=
  [VSCode; Cursor; iTerm2; Terminal; alacritty; Unknown].

Definition isSet (env : gmap string string) (name : string) : Prop :=
  truthy (env !! name) = true.

(** The time stamp of a client whose activity is a number. *)
Definition stamp (c : Client) : Z :=
  match activity c with
  | Num z => z
  | NaN => 0%Z
  end.

Definition tmuxCall (args : list string) : Call := mkCall "tmux" args.

(** The three queries of [getCurrentTmuxInfo]. *)
Definition currentQueries : list Call :=
  [ tmuxCall (displayArgs "#{session_name}");
    tmuxCall (displayArgs "#{window_index}");
    tmuxCall (displayArgs "#{pane_index}") ].

Definition listSessionsCall : Call :=
  tmuxCall ["list-sessions"; "-F"; "#{session_name}"].

Definition succeed (stdout : string) : ProcResult := Closed (Some 0%Z) stdout "".

(** No program can be launched. *)
Definition worldDown : Oracle := fun _ c => SpawnFailed ("spawn " +:+ program c +:+ " ENOENT").

(** A process whose command is a terminal emulator and whose parent is
    the init process. *)
Definition worldInitChild : Oracle :=
  fun _ _ => succeed "    1 /Applications/iTerm.app/Contents/MacOS/iTerm2".

(** A Cursor terminal that also inherited the generic marker. *)
Definition envCursor : gmap string string :=
  {[ "CURSOR_TRACE_ID" := "3f2a"; "TERM_PROGRAM" := "Apple_Terminal" ]}.

(** The answer of [ps -p <pid> -o ppid=,comm=] read in a table of
    processes (pid, parent pid, command name). *)
Definition psWorld (table : list (Z * (Z * string))) : Oracle :=
  fun _ c =>
    match
      List.find (fun row => bool_decide (arguments c = psArgs (fst row))) table
    with
    | Some (_, (ppid, comm)) =>
        if String.eqb (program c) "ps"
        then succeed ("  " +:+ toString (Num ppid) +:+ " " +:+ comm +:+ nl)
        else SpawnFailed "ENOENT"
    | None => Closed (Some 1%Z) "" ""
    end.

(** The ancestry caller, shell, alacritty, login, init. *)
Definition worldAlacrittyTree : Oracle :=
  psWorld [ (500, (400, "node")); (400, (300, "-zsh"));
            (300, (200, "alacritty")); (200, (1, "login")) ]%Z.

Definition numeric (c : Client) : Prop := activity c <> NaN.

Definition envTmuxPane : gmap string string :=
  {[ "TMUX" := "/private/tmp/tmux-501/default,4021,0"; "TMUX_PANE" := "%3" ]}.

Definition clientsReport : string :=
  "/dev/ttys001|main|1700000100" +:+ nl +:+
  "/dev/ttys002|main|1700000200" +:+ nl +:+
  "/dev/ttys003|main|1700000200" +:+ nl.

(** A session [main] with three attached clients, the last two active
    in the same second. *)
Definition worldClients : Oracle :=
  fun _ c =>
    if bool_decide (c = tmuxCall (displayArgs "#{session_name}"))
    then succeed ("main" +:+ nl)
    else if bool_decide (c = tmuxCall (listClientsArgs "main"))
    then succeed clientsReport
    else Closed (Some 1%Z) "" "".

(** A shell started by the init process, outside the multiplexer: [ps]
    reports the parent 1, every other command succeeds silently. *)
Definition worldShell : Oracle :=
  fun _ c =>
    if String.eqb (program c) "ps" then succeed ("    1 -zsh" +:+ nl) else succeed "".

(** Inside the multiplexer, at pane 0 of window 1 of session [dev]. *)
Definition worldTmuxDev : Oracle :=
  fun _ c =>
    if bool_decide (c = tmuxCall (displayArgs "#{session_name}")) then succeed ("dev" +:+ nl)
    else if bool_decide (c = tmuxCall (displayArgs "#{window_index}")) then succeed ("1" +:+ nl)
    else if bool_decide (c = tmuxCall (displayArgs "#{pane_index}")) then succeed ("0" +:+ nl)
    else Closed (Some 1%Z) "" "".

Definition notifierApp : TmuxNotifier :=
  {| appPath := "/Applications/MacOSNotifyMCP.app"; defaultTitle := "macos-notify-mcp" |}.


Definition openCall (self : TmuxNotifier) (options : NotificationOptions)
    (terminal : TerminalType) : Call :=
  mkCall "/usr/bin/open" (openArgs self options terminal).

(** The notifier built where the bundle exists at no probed location. *)
Definition notifierNoBundle : TmuxNotifier :=
  constructor "/opt/pkg/dist" "/Users/dev/work" (fun _ => false) None.

Definition messageOnly : NotificationOptions :=
  {| title := None; message := "done"; sound := None;
     session := None; window := None; pane := None |}.

Definition messageRequired : Cli.CliResult :=
  {| Cli.exitCode := 1; Cli.logged := [];
     Cli.errors := ["Error: Message is required (-m option)"] |}.

(** The array that [listSessions] returns when it is called after the
    calls [tr]. *)
Definition sessionsAt (world : Oracle) (tr : list Call) : list string :=
  match outcome world "tmux" ["list-sessions"; "-F"; "#{session_name}"] tr with
  | inr output => filterBoolean (split "010" (trim output))
  | inl _ => []
  end.

(** The bundle exists at the development path only. *)
Definition onlyDevelopment (path : string) : bool :=
  String.eqb path (developmentPath "/Users/dev/work").

Definition lsofCall (clientTty : string) : Call := mkCall "lsof" [clientTty].

Definition commCall (pidField : string) : Call :=
  mkCall "ps" ["-p"; pidField; "-o"; "comm="].

Definition termnameCall : Call := tmuxCall (displayArgs "#{client_termname}").

Definition showEnvironmentCall : Call :=
  tmuxCall ["show-environment"; "-g"; "TERM_PROGRAM"].

Definition lsofReport : string :=
  "COMMAND    PID USER   FD   TYPE DEVICE SIZE/OFF NODE NAME" +:+ nl +:+
  "Code       4321 dev   0u   CHR   16,3    0t0  1234 /dev/ttys002" +:+ nl.

(** Inside the multiplexer, attached from the integrated terminal of
    VSCode: the terminal of the one client is held by a helper process
    of the editor. *)
Definition worldCodeHelper : Oracle :=
  fun _ c =>
    if bool_decide (c = tmuxCall (displayArgs "#{session_name}"))
    then succeed ("main" +:+ nl)
    else if bool_decide (c = tmuxCall (listClientsArgs "main"))
    then succeed ("/dev/ttys002|main|1700000200" +:+ nl)
    else if bool_decide (c = lsofCall "/dev/ttys002") then succeed lsofReport
    else if bool_decide (c = commCall "4321")
    then succeed ("/Applications/Visual Studio Code.app/Contents/Frameworks/"
                    +:+ "Code Helper.app/Contents/MacOS/Code Helper" +:+ nl)
    else Closed (Some 1%Z) "" "".

Definition envTmuxOnly : gmap string string :=
  {[ "TMUX" := "/private/tmp/tmux-501/default,4021,0" ]}.

(** The multiplexer names the terminal of its client, nothing else
    answers. *)
Definition worldTermname : Oracle :=
  fun _ c =>
    if bool_decide (c = termnameCall) then succeed ("iterm2" +:+ nl)
    else Closed (Some 1%Z) "" "".

(** Every character of the string is of the class. *)
Fixpoint allChars (cls : ascii -> bool) (s : string) : bool :=
  match s with
  | EmptyString => true
  | String c s' => cls c && allChars cls s'
  end.

Definition gitConfigCall : Call :=
  mkCall "git" ["config"; "--get"; "remote.origin.url"].

Definition gitRootCall : Call := mkCall "git" ["rev-parse"; "--show-toplevel"].

(** A clone over SSH. *)
Definition worldGitRemote : Oracle :=
  fun _ c =>
    if bool_decide (c = gitConfigCall)
    then succeed ("git@github.com:acme/build-tools.git" +:+ nl)
    else Closed (Some 128%Z) "" "fatal".

(** A repository whose remote has a dot in its name; the work tree is
    [/Users/dev/site.js]. *)
Definition worldGitDotted : Oracle :=
  fun _ c =>
    if bool_decide (c = gitConfigCall)
    then succeed ("https://example.org/acme/site.js.git" +:+ nl)
    else if bool_decide (c = gitRootCall) then succeed ("/Users/dev/site.js" +:+ nl)
    else Closed (Some 128%Z) "" "fatal".

(** The truthy coordinate, as the dispatch keeps it. *)
Definition kept (coordinate : option string) : option string :=
  if truthy coordinate then coordinate else None.

Definition pgrepCall (appName : string) : Call :=
  mkCall "/usr/bin/pgrep" ["-f"; appName].

Definition activateCall (appName : string) : Call :=
  mkCall "/usr/bin/osascript" (MacOSNotifyMCP.activateArgs appName).

Definition whichCall : Call := mkCall "/usr/bin/which" ["tmux"].

Definition switchCall (tmuxPath target : string) : Call :=
  mkCall tmuxPath ["switch-client"; "-t"; target].

(** Only iTerm2 is running. *)
Definition worldITerm : Oracle :=
  fun _ c =>
    if bool_decide (c = pgrepCall "iTerm2") then succeed ("812" +:+ nl)
    else if String.eqb (program c) "/usr/bin/pgrep" then Closed (Some 1%Z) "" ""
    else succeed "".

(** No application of the lists is running. *)
Definition worldNoTerminal : Oracle :=
  fun _ c =>
    if String.eqb (program c) "/usr/bin/pgrep" then Closed (Some 1%Z) "" ""
    else succeed "".

Definition homebrewOnly (path : string) : bool :=
  String.eqb path "/opt/homebrew/bin/tmux".

Definition payloadDev : gmap string string :=
  {[ "session" := "dev"; "window" := "1"; "terminal" := "iTerm2" ]}.

Definition toolNames : list string :=
  ["send_notification"; "list_tmux_sessions"; "get_current_tmux_info"].

(** The multiplexer runs the sessions [main] and [logs]. *)
Definition worldTwoSessions : Oracle :=
  fun _ c =>
    if bool_decide (c = listSessionsCall) then succeed ("main" +:+ nl +:+ "logs" +:+ nl)
    else if String.eqb (program c) "ps" then succeed ("    1 -zsh" +:+ nl)
    else succeed "".

Definition toolArgsDev : gmap string Index.JValue :=
  {[ "message" := Index.JString "done"; "session" := Index.JString "dev" ]}.

Definition toolArgsCurrent : gmap string Index.JValue :=
  {[ "message" := Index.JString "done"; "session" := Index.JString "dev";
     "useCurrent" := Index.JBool true ]}.

Definition notificationSent : Cli.CliResult :=
  {| Cli.exitCode := 0; Cli.logged := ["Notification sent successfully"];
     Cli.errors := [] |}.

Definition sessionMissing (name : string) (sessions : list string) : Cli.CliResult :=
  {| Cli.exitCode := 1;
     Cli.logged :=
       if Nat.ltb 0 (length sessions)
       then (nl +:+ "Available sessions:") :: map (fun s => "  " +:+ s) sessions
       else [];
     Cli.errors := ["Error: Session '" +:+ name +:+ "' does not exist"] |}.

(** The three coordinate arguments removed from the arguments of a tool
    call. *)
Definition withoutCoordinates (args : gmap string Index.JValue)
    : gmap string Index.JValue :=
  delete "session" (delete "window" (delete "pane" args)).

(** A character that is no white space. *)
Definition visible (c : ascii) : bool := negb (is_ws c).

Definition payloadKeys : list string := ["session"; "window"; "pane"; "terminal"].

(** A request with the three coordinates. *)
Definition allCoordinates : NotificationOptions :=
  {| title := None; message := "done"; sound := None;
     session := Some "dev"; window := Some "1"; pane := Some "0" |}.

(** The report of [list-clients] for a session named [a|b], the second
    client being the more recent one. *)
Definition pipeReport : string :=
  "/dev/ttys001|a|b|1700000100" +:+ nl +:+
  "/dev/ttys002|a|b|1700000200" +:+ nl.

Definition worldPipeSession : Oracle :=
  fun _ c =>
    if bool_decide (c = tmuxCall (displayArgs "#{session_name}"))
    then succeed ("a|b" +:+ nl)
    else if bool_decide (c = tmuxCall (listClientsArgs "a|b"))
    then succeed pipeReport
    else Closed (Some 1%Z) "" "".

(** A character of the printable ASCII range, the space excluded. *)
Definition printable (c : ascii) : bool :=
  Nat.leb 33 (nat_of_ascii c) && Nat.leb (nat_of_ascii c) 126.

(** An argument of a tool call that is absent or a JSON string, as the
    input schema of [send_notification] declares its text arguments. *)
Definition stringArgument (v : option Index.JValue) : Prop :=
  v = None \/ exists text, v = Some (Index.JString text).

End Props.

(** ** Properties *)

Import JS Proc Notifier Props.
Local Open Scope proc_scope.

(** *** The monad *)

Lemma total_ret {A} (a : A) : total (ret a).
Proof. intros tr. by exists a, tr. Qed.

Lemma total_bind {A B} (m : M A) (k : A -> M B) :
  total m -> (forall a, total (k a)) -> total (bind m k).
Proof.
  intros Hm Hk tr. destruct (Hm tr) as (a & tr1 & E).
  destruct (Hk a tr1) as (b & tr2 & E2).
  exists b, tr2. unfold bind. by rewrite E.
Qed.

Lemma total_try_catch {A} (m : M A) (h : JsError -> M A) :
  (forall e, total (h e)) -> total (try_catch m h).
Proof.
  intros Hh tr. unfold try_catch.
  destruct (m tr) as [[e|a] tr1]; [apply Hh | by exists a, tr1].
Qed.

Lemma total_if {A} (b : bool) (m1 m2 : M A) :
  total m1 -> total m2 -> total (if b then m1 else m2).
Proof. by destruct b. Qed.

Create HintDb total.
#[local] Hint Resolve total_ret total_try_catch : total.

Lemma arrayIncludes_elem_of (arr : list string) (x : string) :
  arrayIncludes arr x = bool_decide (x ∈ arr).
Proof.
  unfold arrayIncludes.
  destruct (existsb (String.eqb x) arr) eqn:E; symmetry.
  - apply bool_decide_eq_true.
    apply existsb_exists in E as (y & Hin & ->%String.eqb_eq).
    by apply list_elem_of_In.
  - apply bool_decide_eq_false. intros Hin%list_elem_of_In.
    assert (existsb (String.eqb x) arr = true) as E'; [|congruence].
    apply existsb_exists. exists x. split; [done | apply String.eqb_refl].
Qed.

(** *** The session directory *)

(** C7: [getCurrentTmuxInfo] asks for the session, the window and the
    pane in that order; when the three queries succeed it returns the
    three trimmed coordinates after exactly these three calls, and when
    any one of them fails it returns null.  It never throws and never
    returns a part of the coordinates. *)
Theorem getCurrentTmuxInfo_all_or_null (world : Oracle) (tr : list Call) :
  let ask format t := outcome world "tmux" (displayArgs format) t in
  let q format := tmuxCall (displayArgs format) in
  match ask "#{session_name}" tr,
        ask "#{window_index}" (tr ++ [q "#{session_name}"]),
        ask "#{pane_index}" (tr ++ [q "#{session_name}"; q "#{window_index}"])
  with
  | inr s, inr w, inr p =>
      getCurrentTmuxInfo world tr =
        (inr (Some {| ti_session := trim s; ti_window := trim w; ti_pane := trim p |}),
         tr ++ currentQueries)
  | _, _, _ => fst (getCurrentTmuxInfo world tr) = inr None
  end.
Proof.
  cbv zeta. unfold currentQueries.
  set (q1 := tmuxCall (displayArgs "#{session_name}")).
  set (q2 := tmuxCall (displayArgs "#{window_index}")).
  set (q3 := tmuxCall (displayArgs "#{pane_index}")).
  replace (tr ++ [q1; q2]) with ((tr ++ [q1]) ++ [q2]) by (by rewrite <- app_assoc).
  replace (tr ++ [q1; q2; q3]) with (((tr ++ [q1]) ++ [q2]) ++ [q3])
    by (by rewrite <- !app_assoc).
  unfold getCurrentTmuxInfo, try_catch, bind, tmuxDisplay, runCommand, ret.
  fold q1 q2 q3. unfold tmuxCall in *.
  destruct (outcome world "tmux" (displayArgs "#{session_name}") tr) as [e1|s];
    [by repeat case_match|].
  destruct (outcome world "tmux" (displayArgs "#{window_index}") _) as [e2|w];
    [by repeat case_match|].
  by destruct (outcome world "tmux" (displayArgs "#{pane_index}") _) as [e3|p].
Qed.

(** C8: when the query of [listSessions] fails the result is the empty
    array and nothing is thrown; [sessionExists name] is the membership
    of [name] in the array that [listSessions] returns, hence false when
    that array is empty. *)
Theorem listSessions_sessionExists (world : Oracle) (name : string) (tr : list Call) :
  (forall e, outcome world "tmux" ["list-sessions"; "-F"; "#{session_name}"] tr = inl e ->
     listSessions world tr = (inr [], tr ++ [listSessionsCall])) /\
  exists sessions tr',
    listSessions world tr = (inr sessions, tr') /\
    sessionExists world name tr = (inr (bool_decide (name ∈ sessions)), tr') /\
    (sessions = [] -> sessionExists world name tr = (inr false, tr')).
Proof.
  unfold sessionExists, listSessions, try_catch, bind, runCommand, ret,
    listSessionsCall, tmuxCall.
  split.
  - intros e E. by rewrite E.
  - destruct (outcome world "tmux" _ tr) as [e|out]; eexists _, _;
      (split; [reflexivity|]);
      (split; [do 2 f_equal; apply arrayIncludes_elem_of
              | intros E; try rewrite E; reflexivity]).
Qed.

Lemma listSessions_sessionExists_witness :
  listSessions worldDown [] = (inr [], [listSessionsCall]) /\
  sessionExists worldDown "x" [] = (inr false, [listSessionsCall]).
Proof.
  destruct (listSessions_sessionExists worldDown "x" []) as [Hfail (ss & tr' & Hl & _ & Hx)].
  pose proof (Hfail (Error "spawn tmux ENOENT") eq_refl) as Hnil.
  split; [exact Hnil|].
  rewrite Hnil in Hl. injection Hl as <- <-. by apply Hx.
Defined.

(** *** The terminal resolver *)

Lemma total_getActiveClientInfo env world : total (getActiveClientInfo env world).
Proof. unfold getActiveClientInfo. auto with total. Qed.

Lemma total_detectTerminalFromClient world clientTty :
  total (detectTerminalFromClient world clientTty).
Proof. unfold detectTerminalFromClient. apply total_bind; auto with total. Qed.

Lemma total_tmuxTerminal env world : total (tmuxTerminal env world).
Proof. unfold tmuxTerminal. auto with total. Qed.

Lemma total_processTreeTerminal pid world : total (processTreeTerminal pid world).
Proof. unfold processTreeTerminal. auto with total. Qed.

Lemma total_detectTerminalEmulator env pid world :
  total (detectTerminalEmulator env pid world).
Proof.
  unfold detectTerminalEmulator.
  destruct (envTerminal env); [apply total_ret|].
  apply total_bind.
  - apply total_if; [apply total_tmuxTerminal | apply total_ret].
  - intros [t|]; [apply total_ret|].
    apply total_bind; [apply total_processTreeTerminal | intros; apply total_ret].
Qed.

Lemma TerminalTypes_closed (t : TerminalType) : t ∈ TerminalTypes.
Proof. unfold TerminalTypes. destruct t; set_solver. Qed.

(** C2: from every environment, every process id and every behaviour of
    the external commands, [detectTerminalEmulator] returns a value of
    the closed set of terminal types and throws nothing; the value is
    the conclusion of one of the three strategies, or else it is
    [Unknown]. *)
Theorem detectTerminalEmulator_total
    (env : gmap string string) (pid : Z) (world : Oracle) (tr : list Call) :
  exists t tr',
    detectTerminalEmulator env pid world tr = (inr t, tr') /\
    t ∈ TerminalTypes /\
    (envTerminal env = Some t \/
     (exists tr0 tr1, tmuxTerminal env world tr0 = (inr (Some t), tr1)) \/
     (exists tr0 tr1, processTreeTerminal pid world tr0 = (inr (Some t), tr1)) \/
     t = Unknown).
Proof.
  unfold detectTerminalEmulator.
  destruct (envTerminal env) as [t|] eqn:Eenv.
  { exists t, tr. split; [done|]. split; [apply TerminalTypes_closed | by left]. }
  unfold bind.
  assert (exists r tr1,
    (if truthy (env !! "TMUX") then tmuxTerminal env world else ret None) tr
      = (inr r, tr1)) as (r & tr1 & E1).
  { destruct (truthy (env !! "TMUX"));
      [apply total_tmuxTerminal | apply total_ret]. }
  rewrite E1.
  destruct r as [t|].
  { exists t, tr1. split; [done|]. split; [apply TerminalTypes_closed|].
    right; left. destruct (truthy (env !! "TMUX")); [by eauto|].
    discriminate E1. }
  destruct (total_processTreeTerminal pid world tr1) as (r2 & tr2 & E2).
  rewrite E2. exists (default Unknown r2), tr2.
  split; [done|]. split; [apply TerminalTypes_closed|].
  destruct r2 as [t|]; [right; right; left; by eauto | by repeat right].
Qed.

(** C3: the environment markers are read in a fixed order and the first
    one that is set gives the result, without any external command:
    the Cursor trace id, then the VSCode IPC hook (Cursor or VSCode,
    by its value), then the VSCode remote or pid markers, then the
    alacritty window id or socket, then a recognised value of
    [TERM_PROGRAM].  So an IDE marker wins over [TERM_PROGRAM]. *)
Theorem detectTerminalEmulator_marker_priority
    (env : gmap string string) (pid : Z) (world : Oracle) (tr : list Call) :
  let detect := detectTerminalEmulator env pid world tr in
  (isSet env "CURSOR_TRACE_ID" -> detect = (inr Cursor, tr)) /\
  (~ isSet env "CURSOR_TRACE_ID" -> isSet env "VSCODE_IPC_HOOK_CLI" ->
     detect =
       (inr (if includes (default "" (env !! "VSCODE_IPC_HOOK_CLI")) "Cursor"
             then Cursor else VSCode), tr)) /\
  (~ isSet env "CURSOR_TRACE_ID" -> ~ isSet env "VSCODE_IPC_HOOK_CLI" ->
     isSet env "VSCODE_REMOTE" \/ isSet env "VSCODE_PID" ->
     detect = (inr VSCode, tr)) /\
  (~ isSet env "CURSOR_TRACE_ID" -> ~ isSet env "VSCODE_IPC_HOOK_CLI" ->
     ~ isSet env "VSCODE_REMOTE" -> ~ isSet env "VSCODE_PID" ->
     isSet env "ALACRITTY_WINDOW_ID" \/ isSet env "ALACRITTY_SOCKET" ->
     detect = (inr alacritty, tr)) /\
  (~ isSet env "CURSOR_TRACE_ID" -> ~ isSet env "VSCODE_IPC_HOOK_CLI" ->
     ~ isSet env "VSCODE_REMOTE" -> ~ isSet env "VSCODE_PID" ->
     ~ isSet env "ALACRITTY_WINDOW_ID" -> ~ isSet env "ALACRITTY_SOCKET" ->
     (env !! "TERM_PROGRAM" = Some "iTerm.app" -> detect = (inr iTerm2, tr)) /\
     (env !! "TERM_PROGRAM" = Some "Apple_Terminal" -> detect = (inr Terminal, tr)) /\
     (env !! "TERM_PROGRAM" = Some "alacritty" -> detect = (inr alacritty, tr))).
Proof.
  cbv zeta. unfold isSet, detectTerminalEmulator, envTerminal.
  repeat split; intros;
    repeat match goal with
    | H : ?b = true |- _ => rewrite H
    | H : ?b = true \/ ?c = true |- _ => destruct H
    | H : ?b ≠ true |- _ => apply not_true_is_false in H; rewrite H
    | H : env !! "TERM_PROGRAM" = Some _ |- _ => rewrite H
    end; simpl; try reflexivity;
    try (by destruct (includes _ _));
    by destruct (truthy (env !! "VSCODE_REMOTE")), (truthy (env !! "ALACRITTY_WINDOW_ID")).
Qed.

Lemma detectTerminalEmulator_marker_priority_witness :
  isSet envCursor "CURSOR_TRACE_ID" /\ isSet envCursor "TERM_PROGRAM" /\
  detectTerminalEmulator envCursor 4242 worldDown [] = (inr Cursor, []).
Proof.
  split; [reflexivity|]. split; [reflexivity|].
  apply (detectTerminalEmulator_marker_priority envCursor 4242 worldDown []).
  reflexivity.
Defined.

(** C10: at any hop of the process-tree walk, when the parent process id
    reported for the queried process is unparseable, 0 or 1, the walk
    ends there without an identity and without a further query,
    whatever the command name of that process is: a terminal emulator
    whose parent is the init process is never returned. *)
Theorem processTreeLoop_stops_at_init
    (world : Oracle) (fuel : nat) (currentPid : Z) (tr : list Call) (psOutput : string) :
  outcome world "ps" (psArgs currentPid) tr = inr psOutput ->
  parseInt (fst (psFields psOutput)) = NaN \/
    parseInt (fst (psFields psOutput)) = Num 0 \/
    parseInt (fst (psFields psOutput)) = Num 1 ->
  processTreeLoop world (S fuel) currentPid tr =
    (inr None, tr ++ [mkCall "ps" (psArgs currentPid)]).
Proof.
  intros Hps Hppid. cbn [processTreeLoop]. unfold bind, runCommand. rewrite Hps.
  destruct (psFields psOutput) as [ppidStr command]; cbn [fst] in Hppid.
  by destruct Hppid as [-> | [-> | ->]].
Qed.

Lemma processTreeLoop_stops_at_init_witness :
  snd (psFields "    1 /Applications/iTerm.app/Contents/MacOS/iTerm2")
    = Some "/Applications/iTerm.app/Contents/MacOS/iTerm2" /\
  treeCommandTerminal "/Applications/iTerm.app/Contents/MacOS/iTerm2" = Some iTerm2 /\
  processTreeLoop worldInitChild 10 731 [] = (inr None, [mkCall "ps" (psArgs 731)]).
Proof.
  split; [reflexivity|]. split; [reflexivity|].
  apply (processTreeLoop_stops_at_init worldInitChild 9 731 []
           "    1 /Applications/iTerm.app/Contents/MacOS/iTerm2").
  - reflexivity.
  - right; right. reflexivity.
Defined.

Lemma processTreeLoop_calls (world : Oracle) (fuel : nat) :
  forall currentPid tr r tr',
    processTreeLoop world fuel currentPid tr = (r, tr') ->
    exists calls,
      tr' = tr ++ calls /\ length calls <= fuel /\
      Forall (fun c => program c = "ps") calls.
Proof.
  induction fuel as [|fuel IH]; intros currentPid tr r tr' E.
  - injection E as <- <-. exists []. rewrite app_nil_r. by repeat split.
  - cbn [processTreeLoop] in E. unfold bind, runCommand in E.
    set (call := mkCall "ps" (psArgs currentPid)) in *.
    assert (exists calls, tr ++ [call] = tr ++ calls /\ length calls <= S fuel /\
              Forall (fun c => program c = "ps") calls) as Hone.
    { exists [call]. repeat split; [simpl; lia | by repeat constructor]. }
    destruct (outcome world "ps" (psArgs currentPid) tr) as [e|out];
      [by injection E as <- <-|].
    destruct (psFields out) as [ppidStr command].
    destruct (parseInt ppidStr) as [|ppid]; [by injection E as <- <-|].
    destruct ((ppid =? 0)%Z || (ppid =? 1)%Z); [by injection E as <- <-|].
    destruct (if truthy command then _ else _); [by injection E as <- <-|].
    apply IH in E as (calls & -> & Hlen & Hps).
    exists (call :: calls). rewrite <- app_assoc.
    repeat split; [simpl; lia | by constructor].
Qed.

(** One hop of the walk whose parent process id is neither
    unparseable nor 0 nor 1: the command name is looked up in the table
    of the walk; a match is the result, and otherwise the walk goes on
    from the parent with one hop less. *)
Lemma processTreeLoop_hop
    (world : Oracle) (fuel : nat) (currentPid ppid : Z) (tr : list Call)
    (psOutput : string) :
  outcome world "ps" (psArgs currentPid) tr = inr psOutput ->
  parseInt (fst (psFields psOutput)) = Num ppid ->
  ppid <> 0%Z -> ppid <> 1%Z ->
  processTreeLoop world (S fuel) currentPid tr =
    match snd (psFields psOutput) with
    | Some command =>
        match (if truthy (Some command) then treeCommandTerminal command else None) with
        | Some t => (inr (Some t), tr ++ [mkCall "ps" (psArgs currentPid)])
        | None => processTreeLoop world fuel ppid (tr ++ [mkCall "ps" (psArgs currentPid)])
        end
    | None => processTreeLoop world fuel ppid (tr ++ [mkCall "ps" (psArgs currentPid)])
    end.
Proof.
  intros Hps Hppid H0 H1. cbn [processTreeLoop]. unfold bind, runCommand. rewrite Hps.
  destruct (psFields psOutput) as [ppidStr command]; cbn [fst snd] in *.
  rewrite Hppid.
  destruct (Z.eqb_spec ppid 0) as [|_]; [done|].
  destruct (Z.eqb_spec ppid 1) as [|_]; [done|]. cbn [orb].
  destruct command as [command|]; [|reflexivity].
  cbn [default from_option id].
  by destruct (if truthy (Some command) then _ else _).
Qed.

(** A walk that meets no entry of its table in [maxDepth] hops ends
    without an identity. *)
Lemma processTreeLoop_exhausted (world : Oracle) (currentPid : Z) (tr : list Call) :
  processTreeLoop world 0 currentPid tr = (inr None, tr).
Proof. reflexivity. Qed.

(** C5: with no marker in the environment, outside the multiplexer and
    with the ancestry caller, shell, alacritty, login, the resolver
    queries the four processes and answers [Unknown]: the table of the
    process-tree walk has no entry for alacritty, which the table of
    [detectTerminalFromClient] has. *)
Theorem processTree_alacritty_not_recognised :
  detectTerminalEmulator ∅ 500 worldAlacrittyTree [] =
    (inr Unknown,
     [mkCall "ps" (psArgs 500); mkCall "ps" (psArgs 400);
      mkCall "ps" (psArgs 300); mkCall "ps" (psArgs 200)]) /\
  treeCommandTerminal "alacritty" = None /\
  clientCommandTerminal "alacritty" = Some alacritty.
Proof. by vm_compute. Qed.

(** *** The active client *)

Lemma moreRecent_keeps_first_maximum (rest : list Client) :
  forall (before : list Client) (best : Client) (after : list Client),
    Forall numeric (best :: rest) ->
    Forall (fun c => (stamp c < stamp best)%Z) before ->
    Forall (fun c => (stamp c <= stamp best)%Z) after ->
    exists pre post,
      before ++ best :: after ++ rest = pre ++ fold_left moreRecent rest best :: post /\
      Forall (fun c => (stamp c < stamp (fold_left moreRecent rest best))%Z) pre /\
      Forall (fun c => (stamp c <= stamp (fold_left moreRecent rest best))%Z) post.
Proof.
  induction rest as [|curr rest IH]; intros before best after Hnum Hbefore Hafter.
  - exists before, after. by rewrite app_nil_r.
  - cbn [fold_left].
    apply Forall_cons in Hnum as [Hbest Hnum].
    pose proof Hnum as [Hcurr Hrest]%Forall_cons.
    unfold moreRecent at 2 4 6. unfold numeric in Hbest, Hcurr.
    assert (stamp curr = match activity curr with Num z => z | NaN => 0%Z end) as Sc
      by reflexivity.
    assert (stamp best = match activity best with Num z => z | NaN => 0%Z end) as Sb
      by reflexivity.
    destruct (activity curr) as [|a] eqn:Ea; [done|].
    destruct (activity best) as [|b] eqn:Eb; [done|].
    cbn [gt]. destruct (Z.ltb_spec b a) as [Hlt|Hge].
    + destruct (IH (before ++ best :: after) curr []) as (pre & post & E & Hpre & Hpost).
      * done.
      * apply Forall_app. split.
        -- eapply Forall_impl; [exact Hbefore|]. intros c Hc. simpl in Hc. lia.
        -- constructor; [lia|].
           eapply Forall_impl; [exact Hafter|]. intros c Hc. simpl in Hc. lia.
      * constructor.
      * exists pre, post. rewrite <- E. split; [|done].
        by rewrite <- !app_assoc.
    + destruct (IH before best (after ++ [curr])) as (pre & post & E & Hpre & Hpost).
      * constructor; [unfold numeric; congruence | done].
      * done.
      * apply Forall_app. split; [done|]. constructor; [lia | constructor].
      * exists pre, post. rewrite <- E. split; [|done].
        by rewrite <- !app_assoc.
Qed.

(** C6: the lines of [list-clients] are cut at every [|], so for a
    session whose name holds that character the third field is a part of
    the name and the activity of every client is [NaN].  No client is
    then more recent than another for [reduce], and the first client of
    the report is returned although the second one was active later. *)
Theorem getActiveClientInfo_separator_in_session_name :
  getActiveClientInfo envTmuxPane worldPipeSession [] =
    (inr (Some {| aci_tty := "/dev/ttys001"; aci_session := Some "a";
                  aci_activity := "NaN" |}),
     [tmuxCall (displayArgs "#{session_name}"); tmuxCall (listClientsArgs "a|b")]) /\
  clientsOf pipeReport =
    [ {| tty := "/dev/ttys001"; client_session := Some "a"; activity := NaN |};
      {| tty := "/dev/ttys002"; client_session := Some "a"; activity := NaN |} ].
Proof. split; by vm_compute. Qed.

(** The tie of [clientsReport] goes to the second client, the first of
    the two most recent ones. *)
Example getActiveClientInfo_tie :
  fst (getActiveClientInfo envTmuxPane worldClients []) =
    inr (Some {| aci_tty := "/dev/ttys002"; aci_session := Some "main";
                 aci_activity := "1700000200" |}).
Proof. by vm_compute. Qed.

(** *** Dispatch *)



(** The request with the three coordinates carries the pane beside the
    window. *)
Example coordinateArgs_all :
  coordinateArgs allCoordinates = ["-s"; "dev"; "-w"; "1"; "-p"; "0"].
Proof. reflexivity. Qed.


Lemma pathJoin_nonempty (segments : list string) : pathJoin segments <> "".
Proof.
  unfold pathJoin.
  destruct (String.eqb_spec (join "/" (filterBoolean segments)) ""); [discriminate | done].
Qed.

Lemma truthy_Some_nonempty (s : string) : truthy (Some s) = true <-> s <> "".
Proof. simpl. destruct (String.eqb_spec s ""); naive_solver. Qed.

Lemma constructor_appPath_nonempty
    (moduleDir cwd : string) (existsSync : string -> bool) (custom : option string) :
  appPath (constructor moduleDir cwd existsSync custom) <> "".
Proof.
  unfold constructor; cbn [appPath].
  destruct (truthy custom) eqn:Hc.
  - destruct custom as [s|]; [|discriminate]. by apply truthy_Some_nonempty.
  - destruct (truthy (Some (default "" (List.find existsSync _)))) eqn:Hf.
    + by apply truthy_Some_nonempty.
    + apply pathJoin_nonempty.
Qed.

(** C4, as the code has it: [sendNotification] throws the error
    [MacOSNotifyMCP.app not found], before any command is run, exactly
    when the [appPath] field is empty.  The constructor never leaves it
    empty (with no custom path and no bundle found it falls back on the
    package-relative path), and for a non-empty [appPath] the terminal
    is resolved and the launch of the bundle is attempted, its failure
    being the error of the call. *)
Theorem sendNotification_not_found_iff_empty_appPath
    (env : gmap string string) (pid : Z) (world : Oracle)
    (self : TmuxNotifier) (options : NotificationOptions) (tr : list Call)
    (moduleDir cwd : string) (existsSync : string -> bool) (custom : option string) :
  (appPath self = "" ->
     sendNotification env pid world self options tr
       = (inl (Error "MacOSNotifyMCP.app not found"), tr)) /\
  appPath (constructor moduleDir cwd existsSync custom) <> "" /\
  (appPath self <> "" ->
     exists terminal tr1,
       detectTerminalEmulator env pid world tr = (inr terminal, tr1) /\
       sendNotification env pid world self options tr
         = (match outcome world "/usr/bin/open" (openArgs self options terminal) tr1 with
            | inr _ => inr tt
            | inl e => inl e
            end, tr1 ++ [openCall self options terminal])).
Proof.
  split; [|split].
  - intros E. unfold sendNotification. by rewrite E.
  - apply constructor_appPath_nonempty.
  - intros Hne. apply truthy_Some_nonempty in Hne.
    destruct (total_detectTerminalEmulator env pid world tr) as (t & tr1 & E).
    exists t, tr1. split; [exact E|].
    unfold sendNotification. rewrite Hne. cbn [negb].
    unfold bind, runCommand, ret, openCall. rewrite E.
    by destruct (outcome world "/usr/bin/open" _ tr1).
Qed.

Lemma sendNotification_not_found_iff_empty_appPath_witness :
  sendNotification ∅ 77 worldShell
    {| appPath := ""; defaultTitle := "macos-notify-mcp" |} messageOnly []
    = (inl (Error "MacOSNotifyMCP.app not found"), []) /\
  exists terminal tr1,
    detectTerminalEmulator ∅ 77 worldShell [] = (inr terminal, tr1) /\
    sendNotification ∅ 77 worldShell notifierApp messageOnly []
      = (match outcome worldShell "/usr/bin/open"
                 (openArgs notifierApp messageOnly terminal) tr1 with
         | inr _ => inr tt
         | inl e => inl e
         end, tr1 ++ [openCall notifierApp messageOnly terminal]).
Proof.
  split.
  - apply (sendNotification_not_found_iff_empty_appPath ∅ 77 worldShell
             {| appPath := ""; defaultTitle := "macos-notify-mcp" |} messageOnly []
             "" "" (fun _ => false) None).
    reflexivity.
  - apply (sendNotification_not_found_iff_empty_appPath ∅ 77 worldShell
             notifierApp messageOnly [] "" "" (fun _ => false) None).
    discriminate.
Defined.

(** C4 as stated fails: with no custom path and the bundle at none of
    the probed locations, [sendNotification] does not stop on the error
    [MacOSNotifyMCP.app not found]; it resolves the terminal, attempts
    the launch on the package-relative path and fails with the error of
    that command. *)
Lemma missing_bundle_reaches_launch :
  appPath notifierNoBundle = "/opt/pkg/dist/../MacOSNotifyMCP/MacOSNotifyMCP.app" /\
  sendNotification ∅ 77 worldDown notifierNoBundle messageOnly [] =
    (inl (Error "spawn /usr/bin/open ENOENT"),
     [ mkCall "ps" (psArgs 77); openCall notifierNoBundle messageOnly Unknown ]) /\
  fst (sendNotification ∅ 77 worldDown notifierNoBundle messageOnly [])
    <> inl (Error "MacOSNotifyMCP.app not found").
Proof. split; [by vm_compute|]. split; [by vm_compute | by vm_compute]. Qed.

(** *** The front ends *)

Lemma getCurrentTmuxInfo_calls (world : Oracle) (tr : list Call) :
  exists r calls,
    getCurrentTmuxInfo world tr = (inr r, tr ++ calls) /\
    Forall (fun c => c ∈ currentQueries) calls.
Proof.
  unfold getCurrentTmuxInfo, try_catch, bind, tmuxDisplay, runCommand, ret.
  set (q1 := mkCall "tmux" (displayArgs "#{session_name}")).
  set (q2 := mkCall "tmux" (displayArgs "#{window_index}")).
  set (q3 := mkCall "tmux" (displayArgs "#{pane_index}")).
  assert (q1 ∈ currentQueries) as H1
    by (repeat first [apply list_elem_of_here | apply list_elem_of_further]).
  assert (q2 ∈ currentQueries) as H2
    by (repeat first [apply list_elem_of_here | apply list_elem_of_further]).
  assert (q3 ∈ currentQueries) as H3
    by (repeat first [apply list_elem_of_here | apply list_elem_of_further]).
  destruct (outcome world "tmux" _ tr).
  { exists None, [q1]. by repeat constructor. }
  destruct (outcome world "tmux" _ (tr ++ [q1])).
  { exists None, [q1; q2]. rewrite <- app_assoc. by repeat constructor. }
  destruct (outcome world "tmux" _ ((tr ++ [q1]) ++ [q2]));
    eexists _, [q1; q2; q3]; rewrite <- !app_assoc; by repeat constructor.
Qed.

Lemma arrayIncludes_cons (x y : string) (arr : list string) :
  arrayIncludes (y :: arr) x = String.eqb x y || arrayIncludes arr x.
Proof. reflexivity. Qed.

Lemma parseLoop_calls (world : Oracle) (n : nat) :
  forall args o tr,
    length args <= n ->
    exists o' calls,
      Cli.parseLoop world args o tr = (inr o', tr ++ calls) /\
      Forall (fun c => c ∈ currentQueries) calls /\
      (arrayIncludes args "--current-tmux" = false -> calls = []).
Proof.
  induction n as [|n IH]; intros args o tr Hlen.
  { destruct args; [|simpl in Hlen; lia].
    exists o, []. rewrite app_nil_r. by repeat split. }
  destruct args as [|flag rest].
  { exists o, []. rewrite app_nil_r. by repeat split. }
  cbn [Cli.parseLoop]. simpl in Hlen.
  destruct (Cli.assign flag (head rest) o) as [o1|] eqn:Ea.
  - destruct rest as [|value rest'].
    { exists o1, []. rewrite app_nil_r. by repeat split. }
    destruct (IH rest' o1 tr) as (o' & calls & E & Hq & Hnone);
      [simpl in Hlen; lia|].
    exists o', calls. split; [exact E|]. split; [exact Hq|].
    intros Hinc. apply Hnone.
    rewrite !arrayIncludes_cons in Hinc.
    by apply orb_false_elim in Hinc as [_ [_ ?]%orb_false_elim].
  - destruct (String.eqb_spec flag "--current-tmux") as [->|Hne].
    + unfold bind.
      destruct (getCurrentTmuxInfo_calls world tr) as (r & c1 & -> & Hq1).
      destruct (IH rest (Cli.useCurrent o r) (tr ++ c1)) as (o' & c2 & E & Hq2 & _);
        [lia|].
      exists o', (c1 ++ c2). rewrite app_assoc. split; [exact E|].
      split; [by apply Forall_app|].
      rewrite arrayIncludes_cons. discriminate.
    + destruct (IH rest o tr) as (o' & calls & E & Hq & Hnone); [lia|].
      exists o', calls. split; [exact E|]. split; [exact Hq|].
      intros Hinc. apply Hnone.
      rewrite arrayIncludes_cons in Hinc.
      by apply orb_false_elim in Hinc as [_ ?].
Qed.

(** C9, as the code has it.  The tool handler rejects a call whose
    message is missing or empty before it runs any command for that
    call.  The command-line front end rejects it with exit code 1 before
    the terminal resolver, the session check and the launch; the only
    multiplexer queries that can precede the rejection are the three
    current-coordinate queries that the argument loop issues for each
    [--current-tmux] it meets, and without that option none precedes
    it. *)
Theorem missing_message_rejected
    (env : gmap string string) (pid : Z) (world : Oracle) (tr : list Call)
    (notifier : TmuxNotifier) (toolArgs : gmap string Index.JValue)
    (moduleDir cwd : string) (existsSync : string -> bool) (argv : list string) :
  (Index.truthyValue (toolArgs !! "message") = false ->
     Index.callTool env pid world notifier "send_notification" (Some toolArgs) tr
       = (inr "Error: Message is required", tr)) /\
  (arrayIncludes (drop 2 argv) "--help" = false ->
   arrayIncludes (drop 2 argv) "-h" = false ->
   arrayIncludes (drop 2 argv) "--list-sessions" = false ->
   exists options calls,
     Cli.parseLoop world (drop 2 argv) Cli.initialOptions tr = (inr options, tr ++ calls) /\
     Forall (fun c => c ∈ currentQueries) calls /\
     (arrayIncludes (drop 2 argv) "--current-tmux" = false -> calls = []) /\
     (truthy (Cli.message options) = false ->
        Cli.main env pid world moduleDir cwd existsSync argv tr
          = (inr messageRequired, tr ++ calls))).
Proof.
  split.
  - intros Hm. unfold Index.callTool, try_catch, Index.send_notification.
    cbn [String.eqb Ascii.eqb Bool.eqb]. by rewrite Hm.
  - intros Hhelp Hh Hlist.
    destruct (parseLoop_calls world (length (drop 2 argv)) (drop 2 argv)
                Cli.initialOptions tr) as (o' & calls & E & Hq & Hnone); [done|].
    exists o', calls. repeat split; [exact E | exact Hq | exact Hnone |].
    intros Hm. unfold Cli.main. rewrite Hhelp, Hh, Hlist. cbn [orb].
    unfold bind. rewrite E, Hm. reflexivity.
Qed.

Lemma missing_message_rejected_witness :
  Index.callTool ∅ 77 worldDown notifierApp "send_notification"
    (Some {[ "title" := Index.JString "Build" ]}) []
    = (inr "Error: Message is required", []) /\
  Cli.main ∅ 77 worldDown "/opt/pkg/dist" "/Users/dev/work" (fun _ => false)
    ["node"; "cli.js"; "-t"; "Build"] []
    = (inr messageRequired, []).
Proof.
  destruct (missing_message_rejected ∅ 77 worldDown [] notifierApp
              {[ "title" := Index.JString "Build" ]}
              "/opt/pkg/dist" "/Users/dev/work" (fun _ => false)
              ["node"; "cli.js"; "-t"; "Build"]) as [Htool Hcli].
  split; [apply Htool; reflexivity|].
  destruct Hcli as (options & calls & Hparse & _ & Hnone & Hmain);
    [reflexivity..|].
  rewrite (Hnone eq_refl) in Hparse, Hmain.
  injection Hparse as <-. apply Hmain. reflexivity.
Defined.

(** C9 as stated fails for the command-line front end: called with
    [--current-tmux] and no message, it issues the three multiplexer
    queries of the current coordinates, and only then rejects the call. *)
Lemma current_tmux_queried_before_rejection :
  Cli.main envTmuxPane 77 worldTmuxDev "/opt/pkg/dist" "/Users/dev/work" (fun _ => false)
    ["node"; "cli.js"; "--current-tmux"] []
    = (inr messageRequired, currentQueries) /\
  currentQueries <> [].
Proof. split; [by vm_compute | discriminate]. Qed.


(** * Further properties of the code *)

Ltac in_list := by repeat first [apply list_elem_of_here | apply list_elem_of_further].

(** ** The notifier *)

(** X1: the constructor takes a non-empty custom path as it is, whatever
    the file system holds; without one it takes the package-relative
    bundle when that exists, even if the development bundle exists as
    well, the development bundle when only that one exists, and the
    package-relative path when neither exists. *)
Theorem constructor_appPath_choice
    (moduleDir cwd : string) (existsSync : string -> bool) (custom : option string) :
  let self := constructor moduleDir cwd existsSync custom in
  (forall p, custom = Some p -> p <> "" -> appPath self = p) /\
  (truthy custom = false ->
     (existsSync (packagePath moduleDir) = true -> appPath self = packagePath moduleDir) /\
     (existsSync (packagePath moduleDir) = false ->
      existsSync (developmentPath cwd) = true -> appPath self = developmentPath cwd) /\
     (existsSync (packagePath moduleDir) = false ->
      existsSync (developmentPath cwd) = false -> appPath self = packagePath moduleDir)).
Proof.
  cbv zeta. unfold constructor; cbn [appPath]. split.
  - intros p -> Hp. apply truthy_Some_nonempty in Hp. by rewrite Hp.
  - intros ->. unfold possiblePaths. cbn [List.find].
    assert (forall q, q = packagePath moduleDir \/ q = developmentPath cwd ->
              truthy (Some q) = true) as Hq.
    { intros q [-> | ->]; apply truthy_Some_nonempty, pathJoin_nonempty. }
    repeat split.
    + intros ->. cbn [default from_option id]. by rewrite Hq; [|left].
    + intros -> ->. cbn [default from_option id]. by rewrite Hq; [|right].
    + by intros -> ->.
Qed.

Lemma constructor_appPath_choice_witness :
  appPath (constructor "/opt/pkg/dist" "/Users/dev/work" onlyDevelopment None)
    = "/Users/dev/work/MacOSNotifyMCP/MacOSNotifyMCP.app" /\
  appPath (constructor "/opt/pkg/dist" "/Users/dev/work" onlyDevelopment
             (Some "/Applications/MacOSNotifyMCP.app"))
    = "/Applications/MacOSNotifyMCP.app".
Proof.
  split.
  - apply (constructor_appPath_choice "/opt/pkg/dist" "/Users/dev/work"
             onlyDevelopment None); reflexivity.
  - apply (constructor_appPath_choice "/opt/pkg/dist" "/Users/dev/work"
             onlyDevelopment (Some "/Applications/MacOSNotifyMCP.app"));
      [reflexivity | discriminate].
Defined.

(** X2: [getActiveClientInfo] answers null, and throws nothing, when
    [TMUX_PANE] is not set (then without any command), when the session
    query fails, when the client query fails, and when the multiplexer
    reports no client (the [reduce] of an empty array throws inside the
    [try]). *)
Theorem getActiveClientInfo_null_cases
    (env : gmap string string) (world : Oracle) (tr : list Call) :
  (truthy (env !! "TMUX_PANE") = false ->
     getActiveClientInfo env world tr = (inr None, tr)) /\
  (isSet env "TMUX_PANE" ->
   (forall e, outcome world "tmux" (displayArgs "#{session_name}") tr = inl e ->
      getActiveClientInfo env world tr
        = (inr None, tr ++ [tmuxCall (displayArgs "#{session_name}")])) /\
   (forall sessionOut, outcome world "tmux" (displayArgs "#{session_name}") tr
        = inr sessionOut -> sessionOut <> "" ->
      match outcome world "tmux" (listClientsArgs (trim sessionOut))
              (tr ++ [tmuxCall (displayArgs "#{session_name}")]) with
      | inl _ => fst (getActiveClientInfo env world tr) = inr None
      | inr clientsOut =>
          clientsOf clientsOut = [] ->
          fst (getActiveClientInfo env world tr) = inr None
      end)).
Proof.
  unfold getActiveClientInfo, try_catch, bind, tmuxDisplay, runCommand, ret, lift,
    isSet, tmuxCall.
  split; [by intros ->|].
  intros ->. split.
  - intros e ->. reflexivity.
  - intros sessionOut -> Hne.
    apply truthy_Some_nonempty in Hne. rewrite Hne.
    cbv beta iota delta [negb default from_option id].
    destruct (outcome world "tmux" (listClientsArgs (trim sessionOut)) _)
      as [e|clientsOut]; [reflexivity|].
    by intros ->.
Qed.

Lemma getActiveClientInfo_null_cases_witness :
  getActiveClientInfo ∅ worldClients [] = (inr None, []) /\
  getActiveClientInfo envTmuxPane worldDown []
    = (inr None, [tmuxCall (displayArgs "#{session_name}")]).
Proof.
  split.
  - apply (getActiveClientInfo_null_cases ∅ worldClients []). reflexivity.
  - destruct (getActiveClientInfo_null_cases envTmuxPane worldDown []) as [_ H].
    destruct H as [H _]; [reflexivity|].
    apply (H (Error "spawn tmux ENOENT")). reflexivity.
Defined.

Lemma treeCommandTerminal_range (command : string) (t : TerminalType) :
  treeCommandTerminal command = Some t -> t ∈ [Cursor; VSCode; iTerm2; Terminal].
Proof.
  unfold treeCommandTerminal. intros H.
  repeat match type of H with
  | (if ?b then _ else _) = _ => destruct b
  end; simplify_eq; in_list.
Qed.

Lemma processTreeLoop_range (world : Oracle) (fuel : nat) :
  forall currentPid tr t tr',
    processTreeLoop world fuel currentPid tr = (inr (Some t), tr') ->
    t ∈ [Cursor; VSCode; iTerm2; Terminal].
Proof.
  induction fuel as [|fuel IH]; intros currentPid tr t tr' E; [discriminate|].
  cbn [processTreeLoop] in E. unfold bind, runCommand in E.
  destruct (outcome world "ps" (psArgs currentPid) tr) as [e|out]; [discriminate|].
  destruct (psFields out) as [ppidStr command].
  destruct (parseInt ppidStr) as [|ppid]; [discriminate|].
  destruct ((ppid =? 0)%Z || (ppid =? 1)%Z); [discriminate|].
  destruct (if truthy command then _ else _) as [t'|] eqn:Et.
  - injection E as <- <-.
    destruct (truthy command); [|discriminate].
    by eapply treeCommandTerminal_range.
  - by eapply IH.
Qed.

(** X3: with no marker in the environment and outside the multiplexer,
    the resolver runs [ps] and nothing else, at most ten times, and its
    answer is Cursor, VSCode, iTerm2, Terminal or Unknown: the
    process-tree walk never concludes alacritty. *)
Theorem detectTerminalEmulator_outside_tmux
    (env : gmap string string) (pid : Z) (world : Oracle) (tr : list Call) :
  envTerminal env = None ->
  truthy (env !! "TMUX") = false ->
  exists t calls,
    detectTerminalEmulator env pid world tr = (inr t, tr ++ calls) /\
    length calls <= 10 /\
    Forall (fun c => program c = "ps") calls /\
    t ∈ [Cursor; VSCode; iTerm2; Terminal; Unknown].
Proof.
  intros Henv Htmux.
  unfold detectTerminalEmulator, bind, ret, processTreeTerminal, try_catch.
  rewrite Henv, Htmux.
  destruct (processTreeLoop world maxDepth pid tr) as [r tr'] eqn:E.
  destruct (processTreeLoop_calls world maxDepth pid tr r tr' E)
    as (calls & -> & Hlen & Hps).
  destruct r as [e|[t|]].
  - exists Unknown, calls. repeat split; [done..|in_list].
  - exists t, calls. repeat split; [done..|].
    apply processTreeLoop_range in E.
    rewrite !elem_of_cons in E. rewrite !elem_of_cons. tauto.
  - exists Unknown, calls. repeat split; [done..|in_list].
Qed.

Lemma detectTerminalEmulator_outside_tmux_witness :
  exists t calls,
    detectTerminalEmulator ∅ 500 worldAlacrittyTree [] = (inr t, [] ++ calls) /\
    length calls <= 10 /\
    Forall (fun c => program c = "ps") calls /\
    t ∈ [Cursor; VSCode; iTerm2; Terminal; Unknown].
Proof.
  apply (detectTerminalEmulator_outside_tmux ∅ 500 worldAlacrittyTree []);
    reflexivity.
Defined.

Lemma listSessions_run (world : Oracle) (tr : list Call) :
  listSessions world tr = (inr (sessionsAt world tr), tr ++ [listSessionsCall]).
Proof.
  unfold listSessions, sessionsAt, try_catch, bind, runCommand, ret,
    listSessionsCall, tmuxCall.
  by destruct (outcome world "tmux" _ tr).
Qed.

Lemma sessionExists_run (world : Oracle) (name : string) (tr : list Call) :
  sessionExists world name tr
    = (inr (arrayIncludes (sessionsAt world tr) name), tr ++ [listSessionsCall]).
Proof. unfold sessionExists, bind. by rewrite listSessions_run. Qed.

Lemma filterBoolean_nonempty (l : list string) :
  Forall (fun s => s <> "") (filterBoolean l).
Proof.
  unfold filterBoolean. apply List.Forall_forall. intros s Hin.
  apply filter_In in Hin as [_ Hs]. by destruct (String.eqb_spec s "").
Qed.

Lemma includes_cons_false (c : ascii) (s needle : string) :
  includes (String c s) needle = false -> includes s needle = false.
Proof. cbn [includes]. by intros [_ ?]%orb_false_elim. Qed.

Lemma split_pieces_without_separator (sep : ascii) (s : string) :
  Forall (fun piece => includes piece (String sep "") = false) (split sep s).
Proof.
  induction s as [|c s IH]; cbn [split].
  - by repeat constructor.
  - destruct (Ascii.eqb_spec c sep) as [->|Hne].
    + constructor; [reflexivity | exact IH].
    + destruct (split sep s) as [|h t]; cbn [cons_head].
      * repeat constructor. cbn. apply Ascii.eqb_neq in Hne.
        rewrite Ascii.eqb_sym, Hne. reflexivity.
      * apply Forall_cons in IH as [Hh Ht]. constructor; [|exact Ht].
        cbn [includes startsWith]. apply Ascii.eqb_neq in Hne.
        rewrite Ascii.eqb_sym, Hne. cbn [orb]. exact Hh.
Qed.

(** X4: every name that [listSessions] returns is non-empty and holds no
    line break, whatever the multiplexer prints; so the empty name is
    never an existing session. *)
Theorem listSessions_names_wellformed (world : Oracle) (tr : list Call) :
  exists names,
    listSessions world tr = (inr names, tr ++ [listSessionsCall]) /\
    Forall (fun name => name <> "" /\ includes name nl = false) names /\
    sessionExists world "" tr = (inr false, tr ++ [listSessionsCall]).
Proof.
  exists (sessionsAt world tr). split; [apply listSessions_run|].
  assert (Forall (fun name => name <> "" /\ includes name nl = false)
            (sessionsAt world tr)) as Hall.
  { unfold sessionsAt. destruct (outcome world "tmux" _ tr) as [e|out]; [constructor|].
    apply Forall_and. split; [apply filterBoolean_nonempty|].
    unfold filterBoolean. apply List.Forall_forall. intros name [Hin _]%filter_In.
    pose proof (split_pieces_without_separator "010" (trim out)) as Hs.
    rewrite List.Forall_forall in Hs. by apply Hs. }
  split; [exact Hall|].
  rewrite sessionExists_run. do 2 f_equal.
  rewrite arrayIncludes_elem_of. apply bool_decide_eq_false.
  intros Hin. rewrite Forall_forall in Hall. by destruct (Hall _ Hin).
Qed.

Lemma clientCommandTerminal_known (command : string) (t : TerminalType) :
  clientCommandTerminal command = Some t -> t <> Unknown.
Proof.
  unfold clientCommandTerminal. intros H.
  repeat match type of H with
  | (if ?b then _ else _) = _ => destruct b
  end; by simplify_eq.
Qed.

Lemma detectTerminalFromClient_holder
    (world : Oracle) (clientTty : string) (tr : list Call)
    (lsofOutput header line : string) (rest : list string)
    (pidField psOutput : string) (t : TerminalType) :
  outcome world "lsof" [clientTty] tr = inr lsofOutput ->
  split "010" (trim lsofOutput) = header :: line :: rest ->
  splitWs line !! 1%nat = Some pidField ->
  outcome world "ps" ["-p"; pidField; "-o"; "comm="] (tr ++ [lsofCall clientTty])
    = inr psOutput ->
  clientCommandTerminal (trim psOutput) = Some t ->
  detectTerminalFromClient world clientTty tr
    = (inr t, tr ++ [lsofCall clientTty; commCall pidField]).
Proof.
  unfold detectTerminalFromClient, try_catch, bind, runCommand, ret, lsofCall, commCall.
  intros -> -> Hpid Hps Ht.
  cbn [drop lsofLoop]. unfold bind, runCommand.
  assert (Nat.ltb (length (splitWs line)) 2 = false) as ->.
  { apply Nat.ltb_ge. apply lookup_lt_Some in Hpid. lia. }
  rewrite Hpid. cbn [default from_option id]. rewrite Hps, Ht.
  unfold ret. by rewrite <- app_assoc.
Qed.

(** X5: [detectTerminalFromClient] answers [Unknown] after the one
    [lsof] call when that call fails.  When it succeeds, the header line
    is skipped, and if the process of the first line after it has a
    command name of the table, that terminal is the answer after one
    [ps] call: no further holder of the terminal is looked at. *)
Theorem detectTerminalFromClient_first_holder
    (world : Oracle) (clientTty : string) (tr : list Call) :
  (forall e, outcome world "lsof" [clientTty] tr = inl e ->
     detectTerminalFromClient world clientTty tr
       = (inr Unknown, tr ++ [lsofCall clientTty])) /\
  (forall lsofOutput header line rest pidField psOutput t,
     outcome world "lsof" [clientTty] tr = inr lsofOutput ->
     split "010" (trim lsofOutput) = header :: line :: rest ->
     splitWs line !! 1%nat = Some pidField ->
     outcome world "ps" ["-p"; pidField; "-o"; "comm="] (tr ++ [lsofCall clientTty])
       = inr psOutput ->
     clientCommandTerminal (trim psOutput) = Some t ->
     detectTerminalFromClient world clientTty tr
       = (inr t, tr ++ [lsofCall clientTty; commCall pidField])).
Proof.
  split.
  - unfold detectTerminalFromClient, try_catch, bind, runCommand, ret, lsofCall.
    by intros e ->.
  - intros lsofOutput header line rest pidField psOutput t.
    apply detectTerminalFromClient_holder.
Qed.

Lemma detectTerminalFromClient_first_holder_witness :
  detectTerminalFromClient worldCodeHelper "/dev/ttys002" []
    = (inr VSCode, [] ++ [lsofCall "/dev/ttys002"; commCall "4321"]) /\
  detectTerminalFromClient worldDown "/dev/ttys002" []
    = (inr Unknown, [] ++ [lsofCall "/dev/ttys002"]).
Proof.
  split.
  - eapply (proj2 (detectTerminalFromClient_first_holder worldCodeHelper "/dev/ttys002" [])
              lsofReport).
    + reflexivity.
    + vm_compute; reflexivity.
    + vm_compute; reflexivity.
    + reflexivity.
    + vm_compute; reflexivity.
  - apply (proj1 (detectTerminalFromClient_first_holder worldDown "/dev/ttys002" [])
             (Error "spawn lsof ENOENT")).
    reflexivity.
Defined.

(** X6: inside the multiplexer and with no marker in the environment,
    when [getActiveClientInfo] finds the active client and the first
    process that holds its terminal is a known terminal emulator, the
    resolver answers that terminal after the [lsof] and the [ps] call:
    it asks the multiplexer nothing more and does not walk the process
    tree. *)
Theorem detectTerminalEmulator_via_tty_holder
    (env : gmap string string) (pid : Z) (world : Oracle) (tr tr1 : list Call)
    (info : ActiveClientInfo)
    (lsofOutput header line pidField psOutput : string) (rest : list string)
    (t : TerminalType) :
  envTerminal env = None ->
  isSet env "TMUX" ->
  getActiveClientInfo env world tr = (inr (Some info), tr1) ->
  outcome world "lsof" [aci_tty info] tr1 = inr lsofOutput ->
  split "010" (trim lsofOutput) = header :: line :: rest ->
  splitWs line !! 1%nat = Some pidField ->
  outcome world "ps" ["-p"; pidField; "-o"; "comm="] (tr1 ++ [lsofCall (aci_tty info)])
    = inr psOutput ->
  clientCommandTerminal (trim psOutput) = Some t ->
  detectTerminalEmulator env pid world tr
    = (inr t, tr1 ++ [lsofCall (aci_tty info); commCall pidField]).
Proof.
  intros Henv Htmux Hinfo Hlsof Hlines Hpid Hps Ht.
  pose proof (detectTerminalFromClient_holder world (aci_tty info) tr1 lsofOutput
                header line rest pidField psOutput t Hlsof Hlines Hpid Hps Ht)
    as Hdetect.
  unfold detectTerminalEmulator. rewrite Henv. unfold isSet in Htmux. rewrite Htmux.
  unfold bind at 1. unfold tmuxTerminal, try_catch. unfold bind at 1.
  rewrite Hinfo. unfold bind at 1. unfold bind at 1. rewrite Hdetect.
  apply clientCommandTerminal_known in Ht.
  unfold ret. by destruct t.
Qed.

Lemma detectTerminalEmulator_via_tty_holder_witness :
  detectTerminalEmulator envTmuxPane 77 worldCodeHelper []
    = (inr VSCode,
       [tmuxCall (displayArgs "#{session_name}"); tmuxCall (listClientsArgs "main")]
         ++ [lsofCall "/dev/ttys002"; commCall "4321"]).
Proof.
  eapply (detectTerminalEmulator_via_tty_holder envTmuxPane 77 worldCodeHelper []
            [tmuxCall (displayArgs "#{session_name}"); tmuxCall (listClientsArgs "main")]
            {| aci_tty := "/dev/ttys002"; aci_session := Some "main";
               aci_activity := "1700000200" |}
            lsofReport).
  - reflexivity.
  - reflexivity.
  - vm_compute; reflexivity.
  - reflexivity.
  - vm_compute; reflexivity.
  - vm_compute; reflexivity.
  - reflexivity.
  - vm_compute; reflexivity.
Defined.

(** X7: inside the multiplexer, with no marker in the environment and no
    active client found, the terminal name that the multiplexer reports
    for its client decides: a name holding [iterm] or [iTerm] gives
    iTerm2, one holding [Apple_Terminal] gives Terminal, with no further
    command.  When that query fails, the resolver does not ask for the
    global environment of the multiplexer: its next command is the [ps]
    of the process-tree walk. *)
Theorem detectTerminalEmulator_termname
    (env : gmap string string) (pid : Z) (world : Oracle) (tr tr1 : list Call) :
  envTerminal env = None ->
  isSet env "TMUX" ->
  getActiveClientInfo env world tr = (inr None, tr1) ->
  match outcome world "tmux" (displayArgs "#{client_termname}") tr1 with
  | inr clientTerm =>
      (includes clientTerm "iterm" || includes clientTerm "iTerm" = true ->
         detectTerminalEmulator env pid world tr = (inr iTerm2, tr1 ++ [termnameCall])) /\
      (includes clientTerm "iterm" || includes clientTerm "iTerm" = false ->
       includes clientTerm "Apple_Terminal" = true ->
         detectTerminalEmulator env pid world tr = (inr Terminal, tr1 ++ [termnameCall]))
  | inl _ =>
      detectTerminalEmulator env pid world tr
        = (let '(r, tr2) := processTreeTerminal pid world (tr1 ++ [termnameCall]) in
           (match r with inr viaTree => inr (default Unknown viaTree) | inl e => inl e end,
            tr2))
  end.
Proof.
  intros Henv Htmux Hinfo.
  unfold detectTerminalEmulator. rewrite Henv. unfold isSet in Htmux. rewrite Htmux.
  unfold tmuxTerminal, try_catch, bind, ret, tmuxDisplay, runCommand,
    termnameCall, tmuxCall.
  rewrite Hinfo.
  destruct (outcome world "tmux" (displayArgs "#{client_termname}") tr1)
    as [e|clientTerm].
  - destruct (processTreeTerminal pid world _) as [[e'|r] tr2]; reflexivity.
  - split.
    + by intros ->.
    + by intros -> ->.
Qed.

Lemma detectTerminalEmulator_termname_witness :
  detectTerminalEmulator envTmuxOnly 77 worldTermname []
    = (inr iTerm2, [] ++ [termnameCall]).
Proof.
  pose proof (detectTerminalEmulator_termname envTmuxOnly 77 worldTermname [] []
                eq_refl eq_refl eq_refl) as H.
  cbv beta iota in H. destruct H as [H _]. apply H. reflexivity.
Defined.

(** ** The default title *)

Lemma app_String (c : ascii) (s t : string) : String c s +:+ t = String c (s +:+ t).
Proof. reflexivity. Qed.

Lemma app_empty_l (s : string) : "" +:+ s = s.
Proof. reflexivity. Qed.

Lemma app_empty_r (s : string) : s +:+ "" = s.
Proof. induction s as [|c s IH]; [done|]. by rewrite app_String, IH. Qed.

Lemma string_app_assoc (s t u : string) : (s +:+ t) +:+ u = s +:+ (t +:+ u).
Proof. induction s as [|c s IH]; [done|]. by rewrite !app_String, IH. Qed.

Lemma snoc_app (acc : string) (c : ascii) (g : string) :
  snoc acc c +:+ g = acc +:+ String c g.
Proof. unfold snoc. by rewrite string_app_assoc. Qed.

Lemma allChars_app (cls : ascii -> bool) (s t : string) :
  allChars cls (s +:+ t) = allChars cls s && allChars cls t.
Proof.
  induction s as [|c s IH]; [done|].
  rewrite app_String. cbn [allChars]. by rewrite IH, andb_assoc.
Qed.

Lemma allChars_impl (cls cls' : ascii -> bool) (s : string) :
  (forall c, cls c = true -> cls' c = true) ->
  allChars cls s = true -> allChars cls' s = true.
Proof.
  intros Himpl. induction s as [|c s IH]; [done|]. cbn [allChars].
  intros [Hc Hs]%andb_true_iff. by rewrite (Himpl c Hc), IH.
Qed.

Lemma lazyPlus_sound (cls : ascii -> bool) (k : string -> string -> option string) :
  forall s acc r,
    lazyPlus cls acc s k = Some r ->
    exists g rest,
      s = g +:+ rest /\ g <> "" /\ allChars cls g = true /\
      k (acc +:+ g) rest = Some r.
Proof.
  induction s as [|c s IH]; intros acc r H; cbn [lazyPlus] in H; [done|].
  destruct (cls c) eqn:Hc; [|done].
  destruct (k (snoc acc c) s) as [r'|] eqn:Hk.
  - injection H as ->. exists (String c ""), s.
    repeat split; [done | by cbn [allChars]; rewrite Hc | exact Hk].
  - apply IH in H as (g & rest & -> & Hg & Hall & Hk').
    exists (String c g), rest. split; [reflexivity|]. split; [done|].
    split; [by cbn [allChars]; rewrite Hc|]. by rewrite <- snoc_app.
Qed.

Lemma greedyPlus_sound (cls : ascii -> bool) (k : string -> string -> option string) :
  forall s acc r,
    greedyPlus cls acc s k = Some r ->
    exists g rest,
      s = g +:+ rest /\ g <> "" /\ allChars cls g = true /\
      k (acc +:+ g) rest = Some r.
Proof.
  induction s as [|c s IH]; intros acc r H; cbn [greedyPlus] in H; [done|].
  destruct (cls c) eqn:Hc; [|done].
  destruct (greedyPlus cls (snoc acc c) s k) as [r'|] eqn:Hrec.
  - injection H as ->. apply IH in Hrec as (g & rest & -> & Hg & Hall & Hk').
    exists (String c g), rest. split; [reflexivity|]. split; [done|].
    split; [by cbn [allChars]; rewrite Hc|]. by rewrite <- snoc_app.
  - exists (String c ""), s.
    repeat split; [done | by cbn [allChars]; rewrite Hc | exact H].
Qed.

Lemma lazyPlus_complete (cls : ascii -> bool) (k : string -> string -> option string) :
  forall g acc rest r,
    g <> "" -> allChars cls g = true -> k (acc +:+ g) rest = Some r ->
    is_Some (lazyPlus cls acc (g +:+ rest) k).
Proof.
  induction g as [|c g IH]; [done|]. intros acc rest r _ Hall Hk.
  cbn [allChars] in Hall. apply andb_true_iff in Hall as [Hc Hall].
  rewrite app_String. cbn [lazyPlus]. rewrite Hc.
  destruct (k (snoc acc c) (g +:+ rest)) as [r'|] eqn:E; [by eexists|].
  destruct g as [|c' g'].
  - rewrite app_empty_l in E. unfold snoc in E. congruence.
  - apply (IH (snoc acc c) rest r); [done | done | by rewrite snoc_app].
Qed.

Lemma greedyPlus_complete (cls : ascii -> bool) (k : string -> string -> option string) :
  forall g acc rest r,
    g <> "" -> allChars cls g = true -> k (acc +:+ g) rest = Some r ->
    is_Some (greedyPlus cls acc (g +:+ rest) k).
Proof.
  induction g as [|c g IH]; [done|]. intros acc rest r _ Hall Hk.
  cbn [allChars] in Hall. apply andb_true_iff in Hall as [Hc Hall].
  rewrite app_String. cbn [greedyPlus]. rewrite Hc.
  destruct (greedyPlus cls (snoc acc c) (g +:+ rest) k) as [r'|] eqn:E; [by eexists|].
  destruct g as [|c' g'].
  - rewrite app_empty_l in *. unfold snoc. by eexists.
  - destruct (IH (snoc acc c) rest r) as [r' E']; [done | done | by rewrite snoc_app|].
    congruence.
Qed.

Lemma repoMatchAt_sound (s r : string) :
  repoMatchAt s = Some r ->
  exists c owner suffix,
    s = String c (owner +:+ String "/" (r +:+ suffix)) /\
    allChars is_name_char r = true /\ (suffix = "" \/ suffix = ".git").
Proof.
  destruct s as [|c s1]; [done|]. cbn [repoMatchAt].
  destruct (Ascii.eqb c "/" || Ascii.eqb c ":"); [|done].
  intros (owner & rest1 & -> & _ & _ & Hk)%greedyPlus_sound.
  destruct rest1 as [|c1 r2]; [done|].
  destruct (Ascii.eqb_spec c1 "/") as [->|]; [|done].
  apply lazyPlus_sound in Hk as (g2 & r3 & -> & _ & Hall & Hk).
  rewrite app_empty_l in Hk. unfold gitSuffixEnd in Hk.
  destruct (String.eqb_spec r3 ".git") as [->|_].
  - injection Hk as <-. exists c, owner, ".git". eauto.
  - destruct (String.eqb_spec r3 "") as [->|_]; [|done].
    injection Hk as <-. exists c, owner, "". eauto.
Qed.

Lemma repoMatch_sound (s r : string) :
  repoMatch s = Some r -> exists pre s', s = pre +:+ s' /\ repoMatchAt s' = Some r.
Proof.
  induction s as [|c s IH]; cbn [repoMatch].
  - by cbn [repoMatchAt].
  - destruct (repoMatchAt (String c s)) as [r'|] eqn:E.
    + intros [= ->]. by exists "", (String c s).
    + intros (pre & s' & -> & H)%IH. by exists (String c pre), s'.
Qed.

Lemma repoMatch_complete (pre s : string) :
  is_Some (repoMatchAt s) -> is_Some (repoMatch (pre +:+ s)).
Proof.
  intros [r Hr]. induction pre as [|c pre IH].
  - rewrite app_empty_l. destruct s as [|c s]; [done|]. cbn [repoMatch].
    rewrite Hr. by eexists.
  - rewrite app_String. cbn [repoMatch].
    destruct (repoMatchAt (String c (pre +:+ s))); [by eexists | exact IH].
Qed.

Lemma last_slash_unique (b d : string) :
  allChars (fun c => negb (Ascii.eqb c "/")) b = true ->
  allChars (fun c => negb (Ascii.eqb c "/")) d = true ->
  forall a c, a +:+ String "/" b = c +:+ String "/" d -> b = d.
Proof.
  intros Hb Hd.
  assert (forall x y, allChars (fun c => negb (Ascii.eqb c "/")) (x +:+ String "/" y)
                      = false) as Hslash.
  { intros x y. rewrite allChars_app. cbn. by rewrite andb_false_r. }
  induction a as [|x a IH]; intros [|y c] E;
    rewrite ?app_empty_l, ?app_String in E.
  - by injection E.
  - injection E as <- ->. by rewrite Hslash in Hb.
  - injection E as -> <-. by rewrite Hslash in Hd.
  - injection E as -> E. by eapply IH.
Qed.

Lemma is_name_char_not (c : ascii) (x : ascii) :
  is_name_char x = false -> is_name_char c = true -> negb (Ascii.eqb c x) = true.
Proof. intros Hx Hc. destruct (Ascii.eqb_spec c x) as [->|]; [congruence | done]. Qed.

Lemma name_before_suffix (r r' suffix suffix' : string) :
  allChars is_name_char r = true -> allChars is_name_char r' = true ->
  suffix = "" \/ suffix = ".git" -> suffix' = "" \/ suffix' = ".git" ->
  r +:+ suffix = r' +:+ suffix' -> r = r'.
Proof.
  revert r'. induction r as [|x r IH]; intros [|y r'] Hr Hr' Hs Hs' E;
    rewrite ?app_empty_l, ?app_String in E.
  - done.
  - destruct Hs as [-> | ->]; [done|]. injection E as <- _. by cbn in Hr'.
  - destruct Hs' as [-> | ->]; [done|]. injection E as -> _. by cbn in Hr.
  - injection E as -> E. f_equal.
    cbn [allChars] in Hr, Hr'.
    apply andb_true_iff in Hr as [_ Hr]. apply andb_true_iff in Hr' as [_ Hr'].
    by eapply IH.
Qed.

(** For a remote URL that ends with a separator ([/] or [:]), an owner,
    a slash, a name and an optional [.git], owner and name being made of
    letters, digits, underscores and hyphens, the regular expression
    captures the name. *)
Lemma repoMatch_remote_url (pre : string) (sep : ascii) (owner repo suffix : string) :
  sep = "/"%char \/ sep = ":"%char ->
  owner <> "" -> repo <> "" ->
  allChars is_name_char owner = true -> allChars is_name_char repo = true ->
  suffix = "" \/ suffix = ".git" ->
  repoMatch (pre +:+ String sep (owner +:+ String "/" (repo +:+ suffix))) = Some repo.
Proof.
  intros Hsep Howner Hrepo Hao Har Hsuffix.
  assert (is_Some (repoMatchAt (String sep (owner +:+ String "/" (repo +:+ suffix)))))
    as Hat.
  { cbn [repoMatchAt].
    assert (Ascii.eqb sep "/" || Ascii.eqb sep ":" = true) as ->
      by (by destruct Hsep as [-> | ->]).
    destruct (lazyPlus_complete is_name_char
                (fun g2 r3 => if gitSuffixEnd r3 then Some g2 else None)
                repo "" suffix repo) as [r2 Hr2]; [done | done | |].
    { rewrite app_empty_l. by destruct Hsuffix as [-> | ->]. }
    eapply (greedyPlus_complete is_name_char _ owner "" _ r2); [done | done |].
    cbn beta iota. by rewrite Ascii.eqb_refl. }
  destruct (repoMatch_complete pre _ Hat) as [r Hr]. rewrite Hr. f_equal.
  apply repoMatch_sound in Hr as (pre' & s' & E & Hs').
  apply repoMatchAt_sound in Hs' as (c & owner' & suffix' & -> & Har' & Hsuffix').
  assert (forall x, allChars is_name_char x = true ->
            forall sfx, sfx = "" \/ sfx = ".git" ->
            allChars (fun c => negb (Ascii.eqb c "/")) (x +:+ sfx) = true) as Hns.
  { intros x Hx sfx Hsfx. rewrite allChars_app.
    rewrite (allChars_impl is_name_char _ x); [|by intros ch; apply is_name_char_not|done].
    by destruct Hsfx as [-> | ->]. }
  assert (repo +:+ suffix = r +:+ suffix') as Etail.
  { eapply (last_slash_unique _ _ (Hns repo Har suffix Hsuffix) (Hns r Har' suffix' Hsuffix')
              (pre +:+ String sep owner) (pre' +:+ String c owner')).
    rewrite !string_app_assoc, !app_String. exact E. }
  symmetry.
  exact (name_before_suffix repo r suffix suffix' Har Har' Hsuffix Hsuffix' Etail).
Qed.

Lemma gitRootName_run (world : Oracle) (tr : list Call) :
  gitRootName world tr
    = (match outcome world "git" ["rev-parse"; "--show-toplevel"] tr with
       | inr gitRoot => inr (lastSegment (trim gitRoot))
       | inl e => inl e
       end, tr ++ [gitRootCall]).
Proof.
  unfold gitRootName, bind, runCommand, ret, gitRootCall.
  by destruct (outcome world "git" _ tr).
Qed.

(** X8: when the remote URL that [git config] prints ends, after
    trimming, with a slash or colon, an owner, a slash, a repository
    name and an optional [.git], owner and name being made of letters,
    digits, underscores and hyphens, [getGitRepoName] returns the
    repository name after that one command. *)
Theorem getGitRepoName_remote_url
    (world : Oracle) (tr : list Call) (output pre : string) (sep : ascii)
    (owner repo suffix : string) :
  outcome world "git" ["config"; "--get"; "remote.origin.url"] tr = inr output ->
  trim output = pre +:+ String sep (owner +:+ String "/" (repo +:+ suffix)) ->
  sep = "/"%char \/ sep = ":"%char ->
  owner <> "" -> repo <> "" ->
  allChars is_name_char owner = true -> allChars is_name_char repo = true ->
  suffix = "" \/ suffix = ".git" ->
  getGitRepoName world tr = (inr (Some repo), tr ++ [gitConfigCall]).
Proof.
  intros Hout Hurl Hsep Howner Hrepo Hao Har Hsuffix.
  unfold getGitRepoName, try_catch, bind, runCommand, gitConfigCall.
  rewrite Hout. cbv zeta. rewrite Hurl.
  assert (truthy (Some (pre +:+ String sep (owner +:+ String "/" (repo +:+ suffix))))
            = true) as ->.
  { apply truthy_Some_nonempty. by destruct pre. }
  cbn [negb]. by rewrite repoMatch_remote_url.
Qed.

Lemma getGitRepoName_remote_url_witness :
  getGitRepoName worldGitRemote [] = (inr (Some "build-tools"), [] ++ [gitConfigCall]).
Proof.
  apply (getGitRepoName_remote_url worldGitRemote []
           ("git@github.com:acme/build-tools.git" +:+ nl)
           "git@github.com" ":" "acme" "build-tools" ".git").
  - reflexivity.
  - vm_compute; reflexivity.
  - by right.
  - discriminate.
  - discriminate.
  - reflexivity.
  - reflexivity.
  - by right.
Defined.

(** X9: [getGitRepoName] returns null after the one [git config] call
    when that call fails, as it does with exit code 1 where no remote is
    configured: the root directory is then not asked for.  When the
    call succeeds and the expression finds no repository name in the
    trimmed output, the name is the last segment of the path that
    [git rev-parse --show-toplevel] prints, and null when that segment
    is empty or that second call fails. *)
Theorem getGitRepoName_fallbacks (world : Oracle) (tr : list Call) :
  (forall e, outcome world "git" ["config"; "--get"; "remote.origin.url"] tr = inl e ->
     getGitRepoName world tr = (inr None, tr ++ [gitConfigCall])) /\
  (forall output,
     outcome world "git" ["config"; "--get"; "remote.origin.url"] tr = inr output ->
     repoMatch (trim output) = None ->
     getGitRepoName world tr
       = (inr match outcome world "git" ["rev-parse"; "--show-toplevel"]
                      (tr ++ [gitConfigCall]) with
              | inr gitRoot => lastSegment (trim gitRoot)
              | inl _ => None
              end, tr ++ [gitConfigCall; gitRootCall])).
Proof.
  unfold getGitRepoName, try_catch, bind, runCommand, gitConfigCall.
  split.
  - by intros e ->.
  - intros output -> Hnone. cbv zeta. rewrite Hnone.
    assert (forall b : bool,
              (if b then gitRootName world else gitRootName world) = gitRootName world)
      as -> by (by intros []).
    rewrite gitRootName_run. rewrite <- app_assoc.
    by destruct (outcome world "git" ["rev-parse"; "--show-toplevel"] _).
Qed.

Lemma getGitRepoName_fallbacks_witness :
  getGitRepoName worldDown [] = (inr None, [] ++ [gitConfigCall]) /\
  getGitRepoName worldGitDotted []
    = (inr (Some "site.js"), [] ++ [gitConfigCall; gitRootCall]).
Proof.
  destruct (getGitRepoName_fallbacks worldDown []) as [Hfail _].
  destruct (getGitRepoName_fallbacks worldGitDotted []) as [_ Hroot].
  split.
  - apply (Hfail (Error "spawn git ENOENT")). reflexivity.
  - apply (Hroot ("https://example.org/acme/site.js.git" +:+ nl)).
    + reflexivity.
    + vm_compute; reflexivity.
Defined.

Lemma getGitRepoName_calls (world : Oracle) (tr : list Call) :
  exists r calls,
    getGitRepoName world tr = (inr r, tr ++ calls) /\
    length calls <= 2 /\ Forall (fun c => program c = "git") calls /\
    (forall name, r = Some name -> name <> "").
Proof.
  unfold getGitRepoName, try_catch, bind, runCommand. cbv zeta.
  set (cfg := mkCall "git" ["config"; "--get"; "remote.origin.url"]).
  assert (forall s name, lastSegment s = Some name -> name <> "") as Hlast.
  { unfold lastSegment. intros s name.
    destruct (truthy (Some (default "" (last (split "/" s))))) eqn:E; [|done].
    intros [= <-]. by apply truthy_Some_nonempty. }
  assert (exists r calls,
    (let (s, tr') := gitRootName world (tr ++ [cfg]) in
     match s with
     | inl _ => ret None tr'
     | inr a => (inr a, tr')
     end) = (inr r, tr ++ calls) /\
    length calls <= 2 /\ Forall (fun c => program c = "git") calls /\
    (forall name, r = Some name -> name <> "")) as Hroot.
  { rewrite gitRootName_run.
    destruct (outcome world "git" ["rev-parse"; "--show-toplevel"] _) as [e|root];
      eexists _, [cfg; gitRootCall]; rewrite <- app_assoc;
      (split; [reflexivity|]); (split; [simpl; lia|]);
      (split; [by repeat constructor|]); [done | apply Hlast]. }
  destruct (outcome world "git" _ tr) as [e|output].
  { exists None, [cfg]. by repeat constructor. }
  destruct (negb (truthy (Some (trim output)))); [exact Hroot|].
  destruct (repoMatch (trim output)) as [name|] eqn:Hm; [|exact Hroot].
  exists (Some name), [cfg].
  split; [reflexivity|]. split; [simpl; lia|]. split; [by repeat constructor|].
  intros ? [= <-].
  apply repoMatch_sound in Hm as (pre & s' & _ & Hat).
  destruct s' as [|c s1]; [done|]. cbn [repoMatchAt] in Hat.
  destruct (Ascii.eqb c "/" || Ascii.eqb c ":"); [|done].
  apply greedyPlus_sound in Hat as (g1 & r1 & _ & _ & _ & Hk).
  destruct r1 as [|c1 r2]; [done|]. destruct (Ascii.eqb c1 "/"); [|done].
  apply lazyPlus_sound in Hk as (g2 & r3 & _ & Hg2 & _ & Hk).
  rewrite app_empty_l in Hk. destruct (gitSuffixEnd r3); [|done]. by injection Hk as <-.
Qed.

(** X10: [initializeDefaultTitle] never throws, runs at most two
    commands, both [git], leaves the path of the bundle as it is, and
    keeps the default title non-empty: it replaces the title by the
    repository name only when that name is non-empty. *)
Theorem initializeDefaultTitle_invariant
    (world : Oracle) (self : TmuxNotifier) (tr : list Call) :
  defaultTitle self <> "" ->
  exists self' calls,
    initializeDefaultTitle world self tr = (inr self', tr ++ calls) /\
    defaultTitle self' <> "" /\
    appPath self' = appPath self /\
    length calls <= 2 /\ Forall (fun c => program c = "git") calls.
Proof.
  intros Htitle. unfold initializeDefaultTitle, try_catch, bind, ret.
  destruct (getGitRepoName_calls world tr) as (r & calls & -> & Hlen & Hgit & Hname).
  destruct r as [name|]; cbn [truthy]; [|by exists self, calls].
  specialize (Hname name eq_refl). apply truthy_Some_nonempty in Hname.
  cbn [truthy] in Hname. rewrite Hname.
  eexists _, calls. split; [reflexivity|]. cbn [defaultTitle appPath default from_option id].
  by apply truthy_Some_nonempty in Hname.
Qed.

Lemma initializeDefaultTitle_invariant_witness :
  exists self' calls,
    initializeDefaultTitle worldGitRemote notifierNoBundle [] = (inr self', [] ++ calls) /\
    defaultTitle self' <> "" /\
    appPath self' = appPath notifierNoBundle /\
    length calls <= 2 /\ Forall (fun c => program c = "git") calls.
Proof.
  apply (initializeDefaultTitle_invariant worldGitRemote notifierNoBundle []).
  discriminate.
Defined.

(** The title written for the clone of [worldGitRemote]. *)
Example initializeDefaultTitle_remote :
  match fst (initializeDefaultTitle worldGitRemote notifierNoBundle []) with
  | inr self' => defaultTitle self' = "build-tools"
  | inl _ => False
  end.
Proof. by vm_compute. Qed.

(** ** From the dispatch to the click *)

(** X11: the arguments that [sendNotification] hands to [/usr/bin/open]
    are read back by the argument loop of the native program as the
    title (the default title when none is given), the message, the
    sound ([Glass] when none is given), the resolved terminal, and the
    coordinates that are non-empty, window and pane only beside a
    non-empty session. *)
Theorem parseArguments_openArgs
    (executable : string) (self : TmuxNotifier) (options : NotificationOptions)
    (t : TerminalType) :
  MacOSNotifyMCP.parseArguments
    (MacOSNotifyMCP.launchedArgv executable (openArgs self options t))
  = Some {| MacOSNotifyMCP.title := default (defaultTitle self) (title options);
            MacOSNotifyMCP.message := message options;
            MacOSNotifyMCP.session := kept (session options);
            MacOSNotifyMCP.window :=
              if truthy (session options) then kept (window options) else None;
            MacOSNotifyMCP.pane :=
              if truthy (session options) then kept (pane options) else None;
            MacOSNotifyMCP.sound := default "Glass" (sound options);
            MacOSNotifyMCP.terminal := Some (terminalName t) |}.
Proof.
  unfold MacOSNotifyMCP.parseArguments, MacOSNotifyMCP.launchedArgv, openArgs,
    coordinateArgs, kept.
  destruct (session options) as [s|]; [|by vm_compute].
  cbn [truthy]. destruct (String.eqb_spec s "") as [->|_]; [by vm_compute|].
  cbn [negb].
  destruct (window options) as [w|], (pane options) as [q|]; cbn [truthy];
    repeat match goal with
    | |- context [String.eqb ?x ""] => destruct (String.eqb_spec x "") as [->|_]
    end; by vm_compute.
Qed.

(** X12: for a dispatched request with a non-empty message, the click
    on the notification switches to the target made of the non-empty
    coordinates of the request: the session, then the window after a
    colon, then, only beside a window, the pane after a dot.  Without a
    session the click switches nothing. *)
Theorem click_target_of_dispatch
    (executable : string) (self : TmuxNotifier) (options : NotificationOptions)
    (t : TerminalType) :
  message options <> "" ->
  MacOSNotifyMCP.postedUserInfo
    (MacOSNotifyMCP.launchedArgv executable (openArgs self options t))
    ≫= MacOSNotifyMCP.clickSwitchArgs
  = match kept (session options) with
    | Some s =>
        Some ["switch-client"; "-t";
              MacOSNotifyMCP.tmuxTarget s (kept (window options)) (kept (pane options))]
    | None => None
    end.
Proof.
  intros Hm. apply String.eqb_neq in Hm.
  unfold MacOSNotifyMCP.postedUserInfo, MacOSNotifyMCP.parseArguments,
    MacOSNotifyMCP.launchedArgv, openArgs, coordinateArgs, kept.
  destruct (session options) as [s|]; cbn [truthy].
  2:{ cbn. rewrite Hm. by vm_compute. }
  destruct (String.eqb_spec s "") as [->|_]; cbn [negb].
  { cbn. rewrite Hm. by vm_compute. }
  destruct (window options) as [w|], (pane options) as [q|]; cbn [truthy];
    repeat match goal with
    | |- context [String.eqb ?x ""] => destruct (String.eqb_spec x "") as [->|_]
    end; cbn; rewrite Hm; by vm_compute.
Qed.

Lemma click_target_of_dispatch_witness :
  MacOSNotifyMCP.postedUserInfo
    (MacOSNotifyMCP.launchedArgv "MacOSNotifyMCP"
       (openArgs notifierApp
          {| title := None; message := "done"; sound := None;
             session := Some "dev"; window := Some "1"; pane := None |} iTerm2))
    ≫= MacOSNotifyMCP.clickSwitchArgs
  = Some ["switch-client"; "-t"; "dev:1"].
Proof.
  apply (click_target_of_dispatch "MacOSNotifyMCP" notifierApp
           {| title := None; message := "done"; sound := None;
              session := Some "dev"; window := Some "1"; pane := None |} iTerm2).
  discriminate.
Defined.

(** ** The click handler *)

(** X13: every terminal type that the resolver can hand over has an
    application in the table of the click handler, except [Unknown],
    which has none and so goes to the list of common terminals. *)
Theorem terminalName_in_terminalMap (t : TerminalType) :
  is_Some (MacOSNotifyMCP.terminalMap !! terminalName t) <-> t <> Unknown.
Proof.
  destruct t; vm_compute; split; intros H; try done; try (by eexists).
  by destruct H.
Qed.

Lemma terminalMap_range (name appName : string) :
  MacOSNotifyMCP.terminalMap !! name = Some appName ->
  appName ∈ MacOSNotifyMCP.terminals.
Proof.
  unfold MacOSNotifyMCP.terminalMap, MacOSNotifyMCP.terminals.
  rewrite !lookup_insert_Some, lookup_singleton_Some.
  intros H. repeat (destruct H as [[_ <-] | [_ H]]; [in_list|]).
  destruct H as [_ <-]. in_list.
Qed.

Lemma activate_run (world : Oracle) (appName : string) (tr : list Call) :
  MacOSNotifyMCP.activate world appName tr = (inr tt, tr ++ [activateCall appName]).
Proof. reflexivity. Qed.

Lemma isAppRunning_run (world : Oracle) (appName : string) (tr : list Call) :
  exists running,
    MacOSNotifyMCP.isAppRunning world appName tr
      = (inr running, tr ++ [pgrepCall appName]) /\
    (running = true <->
     exists out err, world tr (pgrepCall appName) = Closed (Some 0%Z) out err).
Proof.
  unfold MacOSNotifyMCP.isAppRunning, MacOSNotifyMCP.runCommand, pgrepCall.
  destruct (world tr _) as [[[| |]|] out err | m] eqn:E;
    eexists; (split; [reflexivity|]); split; try done; try (by eauto);
    by intros (? & ? & [=]).
Qed.

Lemma activateFirstRunning_calls (world : Oracle) (apps : list string) :
  forall tr,
    exists probes appName,
      MacOSNotifyMCP.activateFirstRunning world apps tr
        = (inr tt, tr ++ probes ++ [activateCall appName]) /\
      Forall (fun c => program c = "/usr/bin/pgrep") probes /\
      length probes <= length apps /\
      (appName ∈ apps \/ appName = "Terminal") /\
      ((forall tr' a out err, world tr' (pgrepCall a) <> Closed (Some 0%Z) out err) ->
       appName = "Terminal").
Proof.
  induction apps as [|app rest IH]; intros tr; cbn [MacOSNotifyMCP.activateFirstRunning].
  - exists [], "Terminal". rewrite activate_run.
    repeat split; [constructor | done | by right].
  - unfold bind.
    destruct (isAppRunning_run world app tr) as (running & -> & Hrun).
    destruct running.
    + exists [pgrepCall app], app. rewrite activate_run, <- app_assoc.
      split; [reflexivity|]. split; [by repeat constructor|].
      split; [simpl; lia|]. split; [left; apply list_elem_of_here|].
      intros Hnone. destruct (proj1 Hrun eq_refl) as (out & err & E).
      by destruct (Hnone _ _ _ _ E).
    + destruct (IH (tr ++ [pgrepCall app])) as (probes & a & -> & Hp & Hlen & Hin & Hdef).
      exists (pgrepCall app :: probes), a. rewrite <- !app_assoc.
      split; [reflexivity|]. split; [by constructor|].
      split; [simpl; lia|]. split; [|exact Hdef].
      destruct Hin as [Hin | ->]; [left; by apply list_elem_of_further | by right].
Qed.

(** X14: a call of [activateTerminal] probes with [pgrep] at most seven
    times and then activates exactly one application with [osascript],
    its last command; the application is one of the six common
    terminals.  It is the application of the preferred terminal when
    that one is found running, and [Terminal] when no probe finds any
    application running. *)
Theorem activateTerminal_activates_once
    (world : Oracle) (preferred : option string) (tr : list Call) :
  exists probes appName,
    MacOSNotifyMCP.activateTerminal world preferred tr
      = (inr tt, tr ++ probes ++ [activateCall appName]) /\
    Forall (fun c => program c = "/usr/bin/pgrep") probes /\
    length probes <= 7 /\
    appName ∈ MacOSNotifyMCP.terminals /\
    (forall name mapped out err,
       preferred = Some name -> MacOSNotifyMCP.terminalMap !! name = Some mapped ->
       world tr (pgrepCall mapped) = Closed (Some 0%Z) out err ->
       appName = mapped /\ probes = [pgrepCall mapped]) /\
    ((forall tr' a out err, world tr' (pgrepCall a) <> Closed (Some 0%Z) out err) ->
     appName = "Terminal").
Proof.
  assert (forall a, a ∈ MacOSNotifyMCP.terminals \/ a = "Terminal" ->
            a ∈ MacOSNotifyMCP.terminals) as Hterm.
  { intros a [H | ->]; [exact H | unfold MacOSNotifyMCP.terminals; in_list]. }
  unfold MacOSNotifyMCP.activateTerminal.
  destruct (preferred ≫= _) as [mapped|] eqn:Emap.
  - unfold bind.
    destruct (isAppRunning_run world mapped tr) as (running & -> & Hrun).
    assert (mapped ∈ MacOSNotifyMCP.terminals) as Hmapped.
    { destruct preferred as [name|]; [|done]. by eapply terminalMap_range. }
    destruct running.
    + exists [pgrepCall mapped], mapped. rewrite activate_run, <- app_assoc.
      split; [reflexivity|]. split; [by repeat constructor|].
      split; [simpl; lia|]. split; [exact Hmapped|]. split.
      * intros name mapped' out err -> Hm _. cbn in Emap. by simplify_eq.
      * intros Hnone. destruct (proj1 Hrun eq_refl) as (out & err & E).
        by destruct (Hnone _ _ _ _ E).
    + destruct (activateFirstRunning_calls world MacOSNotifyMCP.terminals
                  (tr ++ [pgrepCall mapped]))
        as (probes & a & -> & Hp & Hlen & Hin & Hdef).
      exists (pgrepCall mapped :: probes), a. rewrite <- !app_assoc.
      split; [reflexivity|]. split; [by constructor|].
      split; [simpl in *; lia|]. split; [by apply Hterm|]. split; [|exact Hdef].
      intros name mapped' out err -> Hm E. cbn in Emap. simplify_eq.
      assert (false = true) as Habs by (apply Hrun; eauto). discriminate.
  - destruct (activateFirstRunning_calls world MacOSNotifyMCP.terminals tr)
      as (probes & a & -> & Hp & Hlen & Hin & Hdef).
    exists probes, a. split; [reflexivity|]. split; [exact Hp|].
    split; [simpl in *; lia|]. split; [by apply Hterm|]. split; [|exact Hdef].
    intros name mapped out err -> Hm _. cbn in Emap. congruence.
Qed.

Lemma activateTerminal_activates_once_witness :
  MacOSNotifyMCP.activateTerminal worldITerm (Some "iTerm2") []
    = (inr tt, [pgrepCall "iTerm2"; activateCall "iTerm2"]) /\
  exists probes,
    MacOSNotifyMCP.activateTerminal worldNoTerminal (Some "Unknown") []
      = (inr tt, [] ++ probes ++ [activateCall "Terminal"]).
Proof.
  split.
  - destruct (activateTerminal_activates_once worldITerm (Some "iTerm2") [])
      as (probes & a & E & _ & _ & _ & Hpref & _).
    destruct (Hpref "iTerm2" "iTerm2" ("812" +:+ nl) "" eq_refl eq_refl eq_refl)
      as [-> ->].
    exact E.
  - destruct (activateTerminal_activates_once worldNoTerminal (Some "Unknown") [])
      as (probes & a & E & _ & _ & _ & _ & Hdef).
    rewrite (Hdef ltac:(intros tr' a' out err; discriminate)) in E.
    by exists probes.
Defined.

Lemma activateTerminal_returns
    (world : Oracle) (preferred : option string) (tr : list Call) :
  exists tr1, MacOSNotifyMCP.activateTerminal world preferred tr = (inr tt, tr1).
Proof.
  unfold MacOSNotifyMCP.activateTerminal.
  destruct (preferred ≫= _) as [mapped|].
  - unfold bind. destruct (isAppRunning_run world mapped tr) as ([|] & -> & _).
    + rewrite activate_run. by eexists.
    + destruct (activateFirstRunning_calls world MacOSNotifyMCP.terminals
                  (tr ++ [pgrepCall mapped])) as (? & ? & -> & _). by eexists.
  - destruct (activateFirstRunning_calls world MacOSNotifyMCP.terminals tr)
      as (? & ? & -> & _). by eexists.
Qed.

(** X15: a click on a notification whose payload holds a session
    activates a terminal and then, as its last command, runs
    [switch-client] with the target of the payload, on the first
    existing one of the three fixed paths of [tmux]; when none exists it
    asks [which], and switches only if [which] succeeds and prints a
    path.  A click on a payload without session and without terminal
    runs no command. *)
Theorem didReceive_commands
    (world : Oracle) (fileExists : string -> bool) (info : gmap string string)
    (tr : list Call) :
  match info !! "session" with
  | Some s =>
      let target := MacOSNotifyMCP.tmuxTarget s (info !! "window") (info !! "pane") in
      exists tr1,
        MacOSNotifyMCP.activateTerminal world (info !! "terminal") tr = (inr tt, tr1) /\
        (forall path, List.find fileExists MacOSNotifyMCP.tmuxPaths = Some path ->
           MacOSNotifyMCP.didReceive world fileExists info tr
             = (inr tt, tr1 ++ [switchCall path target])) /\
        (List.find fileExists MacOSNotifyMCP.tmuxPaths = None ->
           MacOSNotifyMCP.didReceive world fileExists info tr
             = (inr tt,
                tr1 ++ whichCall ::
                  match world tr1 whichCall with
                  | Closed (Some 0%Z) output _ =>
                      if String.eqb (trim output) "" then []
                      else [switchCall (trim output) target]
                  | _ => []
                  end))
  | None =>
      info !! "terminal" = None ->
      MacOSNotifyMCP.didReceive world fileExists info tr = (inr tt, tr)
  end.
Proof.
  unfold MacOSNotifyMCP.didReceive.
  destruct (info !! "session") as [s|]; [|by intros ->].
  cbv zeta. unfold MacOSNotifyMCP.focusToTmux, bind.
  destruct (activateTerminal_returns world (info !! "terminal") tr) as [tr1 ->].
  exists tr1. split; [reflexivity|].
  unfold MacOSNotifyMCP.findTmuxPath. split.
  - intros path Hfind. rewrite Hfind. unfold ret.
    assert (String.eqb path "" = false) as ->.
    { apply find_some in Hfind as [Hin _]. apply String.eqb_neq.
      unfold MacOSNotifyMCP.tmuxPaths in Hin. cbn in Hin.
      by destruct Hin as [<- | [<- | [<- | []]]]. }
    reflexivity.
  - intros ->. fold whichCall.
    destruct (world tr1 whichCall) as [[[| |]|] output err | m];
      cbn [String.eqb]; try reflexivity.
    destruct (String.eqb (trim output) ""); [reflexivity|].
    unfold MacOSNotifyMCP.runCommand, ret, switchCall. by rewrite <- app_assoc.
Qed.

Lemma didReceive_commands_witness :
  MacOSNotifyMCP.didReceive worldITerm homebrewOnly payloadDev []
    = (inr tt,
       [pgrepCall "iTerm2"; activateCall "iTerm2"]
         ++ [switchCall "/opt/homebrew/bin/tmux" "dev:1"]) /\
  MacOSNotifyMCP.didReceive worldITerm homebrewOnly ∅ [] = (inr tt, []).
Proof.
  split.
  - pose proof (didReceive_commands worldITerm homebrewOnly payloadDev []) as H.
    change (payloadDev !! "session") with (Some "dev") in H. cbv beta iota zeta in H.
    destruct H as (tr1 & Hact & Hpath & _).
    assert (tr1 = [pgrepCall "iTerm2"; activateCall "iTerm2"]) as ->.
    { assert (MacOSNotifyMCP.activateTerminal worldITerm (payloadDev !! "terminal") []
                = (inr tt, [pgrepCall "iTerm2"; activateCall "iTerm2"])) as E
        by (by vm_compute).
      congruence. }
    apply (Hpath "/opt/homebrew/bin/tmux"). reflexivity.
  - pose proof (didReceive_commands worldITerm homebrewOnly ∅ []) as H.
    rewrite lookup_empty in H. apply H. reflexivity.
Defined.

(** ** The protocol tool handler *)


(** X16: a tool call without arguments is rejected with the error
    [No arguments provided]; a call with arguments never is: whatever
    the tool and whatever fails, the handler returns a text.  For a name
    that is none of the three tools the text is [Error: Unknown tool:]
    and the name, and no command is run. *)
Theorem callTool_returns_text
    (env : gmap string string) (pid : Z) (world : Oracle) (notifier : TmuxNotifier)
    (name : string) (tr : list Call) :
  Index.callTool env pid world notifier name None tr
    = (inl (Error "No arguments provided"), tr) /\
  (forall args, exists text tr',
     Index.callTool env pid world notifier name (Some args) tr = (inr text, tr')) /\
  (name ∉ toolNames ->
   forall args,
     Index.callTool env pid world notifier name (Some args) tr
       = (inr ("Error: Unknown tool: " +:+ name), tr)).
Proof.
  split; [reflexivity|]. split.
  - intros args. unfold Index.callTool. apply total_try_catch. intros e. apply total_ret.
  - intros Hname args. unfold Index.callTool, try_catch, toolNames in *.
    rewrite !not_elem_of_cons in Hname. destruct Hname as (H1 & H2 & H3 & _).
    apply String.eqb_neq in H1, H2, H3. by rewrite H1, H2, H3.
Qed.

Lemma callTool_returns_text_witness :
  Index.callTool ∅ 77 worldDown notifierApp "restart_server" (Some ∅) []
    = (inr "Error: Unknown tool: restart_server", []).
Proof.
  apply (callTool_returns_text ∅ 77 worldDown notifierApp "restart_server" []).
  unfold toolNames. rewrite !not_elem_of_cons. repeat split; try discriminate.
  apply not_elem_of_nil.
Defined.

(** X17: [send_notification] called with text arguments that are JSON
    strings, as its input schema declares them, a non-empty message and
    (without [useCurrent]) a non-empty session that the multiplexer does
    not list, returns the text that names the missing session and the
    available ones after exactly two [list-sessions] queries: the
    terminal resolver is not invoked and [/usr/bin/open] is not run. *)
Theorem send_notification_unknown_session
    (env : gmap string string) (pid : Z) (world : Oracle) (notifier : TmuxNotifier)
    (args : gmap string Index.JValue) (text name : string) (tr : list Call) :
  args !! "message" = Some (Index.JString text) -> text <> "" ->
  stringArgument (args !! "title") -> stringArgument (args !! "sound") ->
  Index.truthyValue (args !! "useCurrent") = false ->
  args !! "session" = Some (Index.JString name) -> name <> "" ->
  stringArgument (args !! "window") -> stringArgument (args !! "pane") ->
  name ∉ sessionsAt world tr ->
  Index.callTool env pid world notifier "send_notification" (Some args) tr
    = (inr ("Error: Session '" +:+ name +:+ "' does not exist. Available sessions: "
              +:+ join ", " (sessionsAt world (tr ++ [listSessionsCall]))),
       tr ++ [listSessionsCall; listSessionsCall]).
Proof.
  intros Hmessage Htext _ _ Hcur Hsession Hne _ _ Hnot.
  assert (Index.truthyValue (args !! "message") = true) as Hm.
  { rewrite Hmessage. cbn. by apply truthy_Some_nonempty in Htext. }
  assert (Index.stringOrUndefined (args !! "session") = Some name) as Hs.
  { rewrite Hsession. unfold Index.stringOrUndefined. cbn [Index.truthyValue].
    apply String.eqb_neq in Hne. by rewrite Hne. }
  unfold Index.callTool, try_catch. cbn [String.eqb Ascii.eqb Bool.eqb].
  unfold Index.send_notification. rewrite Hm, Hcur. cbn [negb].
  unfold bind at 1. unfold ret at 1. unfold bind at 1.
  cbn [session Index.withCoordinates]. rewrite Hs.
  apply truthy_Some_nonempty in Hne. rewrite Hne.
  unfold bind at 1. rewrite sessionExists_run.
  rewrite arrayIncludes_elem_of, bool_decide_eq_false_2 by done. cbn [negb].
  unfold bind at 1. rewrite listSessions_run. unfold ret.
  cbn [default from_option id]. by rewrite <- app_assoc.
Qed.

Lemma send_notification_unknown_session_witness :
  Index.callTool ∅ 77 worldTwoSessions notifierApp "send_notification"
    (Some toolArgsDev) []
    = (inr ("Error: Session '" +:+ "dev" +:+ "' does not exist. Available sessions: "
              +:+ join ", " (sessionsAt worldTwoSessions ([] ++ [listSessionsCall]))),
       [] ++ [listSessionsCall; listSessionsCall]).
Proof.
  apply (send_notification_unknown_session ∅ 77 worldTwoSessions notifierApp
           toolArgsDev "done" "dev" []).
  - reflexivity.
  - discriminate.
  - by left.
  - by left.
  - reflexivity.
  - reflexivity.
  - discriminate.
  - by left.
  - by left.
  - assert (sessionsAt worldTwoSessions [] = ["main"; "logs"]) as ->
      by (by vm_compute).
    rewrite !not_elem_of_cons. repeat split; try discriminate.
    apply not_elem_of_nil.
Defined.

(** X18: with a truthy [useCurrent], [send_notification] never reads
    the [session], [window] and [pane] arguments of the call: its
    result and its commands are those of the same call without them. *)
Theorem send_notification_useCurrent_ignores_arguments
    (env : gmap string string) (pid : Z) (world : Oracle) (notifier : TmuxNotifier)
    (args : gmap string Index.JValue) (tr : list Call) :
  Index.truthyValue (args !! "useCurrent") = true ->
  Index.callTool env pid world notifier "send_notification" (Some args) tr
    = Index.callTool env pid world notifier "send_notification"
        (Some (withoutCoordinates args)) tr.
Proof.
  intros Hcur.
  assert (forall key, key <> "session" -> key <> "window" -> key <> "pane" ->
            withoutCoordinates args !! key = args !! key) as Hkey.
  { intros key H1 H2 H3. unfold withoutCoordinates.
    by rewrite !lookup_delete_ne. }
  unfold Index.callTool, try_catch. cbn [String.eqb Ascii.eqb Bool.eqb].
  unfold Index.send_notification.
  rewrite !Hkey by discriminate. by rewrite Hcur.
Qed.

Lemma send_notification_useCurrent_ignores_arguments_witness :
  Index.callTool envTmuxPane 77 worldTmuxDev notifierApp "send_notification"
    (Some toolArgsCurrent) []
  = Index.callTool envTmuxPane 77 worldTmuxDev notifierApp "send_notification"
      (Some (withoutCoordinates toolArgsCurrent)) [].
Proof.
  apply (send_notification_useCurrent_ignores_arguments envTmuxPane 77 worldTmuxDev
           notifierApp toolArgsCurrent []).
  reflexivity.
Defined.

(** X19: the two query tools report a multiplexer that does not answer
    as an absence, not as an error: [list_tmux_sessions] returns
    [No tmux sessions found] when its query fails, and
    [get_current_tmux_info] returns [Not in a tmux session] when the
    session query fails, each after that one command. *)
Theorem query_tools_without_multiplexer
    (env : gmap string string) (pid : Z) (world : Oracle) (notifier : TmuxNotifier)
    (args : gmap string Index.JValue) (tr : list Call) :
  (forall e, outcome world "tmux" ["list-sessions"; "-F"; "#{session_name}"] tr = inl e ->
     Index.callTool env pid world notifier "list_tmux_sessions" (Some args) tr
       = (inr "No tmux sessions found", tr ++ [listSessionsCall])) /\
  (forall e, outcome world "tmux" (displayArgs "#{session_name}") tr = inl e ->
     Index.callTool env pid world notifier "get_current_tmux_info" (Some args) tr
       = (inr "Not in a tmux session", tr ++ [tmuxCall (displayArgs "#{session_name}")])).
Proof.
  unfold Index.callTool, try_catch. cbn [String.eqb Ascii.eqb Bool.eqb]. split.
  - intros e E. unfold Index.list_tmux_sessions, bind. rewrite listSessions_run.
    unfold sessionsAt. by rewrite E.
  - intros e E. unfold Index.get_current_tmux_info, bind, getCurrentTmuxInfo,
      try_catch, bind, tmuxDisplay, runCommand, ret, tmuxCall.
    by rewrite E.
Qed.

Lemma query_tools_without_multiplexer_witness :
  Index.callTool ∅ 77 worldDown notifierApp "list_tmux_sessions" (Some ∅) []
    = (inr "No tmux sessions found", [] ++ [listSessionsCall]) /\
  Index.callTool ∅ 77 worldDown notifierApp "get_current_tmux_info" (Some ∅) []
    = (inr "Not in a tmux session", [] ++ [tmuxCall (displayArgs "#{session_name}")]).
Proof.
  destruct (query_tools_without_multiplexer ∅ 77 worldDown notifierApp ∅ [])
    as [Hlist Hcurrent].
  split.
  - apply (Hlist (Error "spawn tmux ENOENT")). reflexivity.
  - apply (Hcurrent (Error "spawn tmux ENOENT")). reflexivity.
Defined.

(** ** The command-line front end *)

(** The run of [main] on a dispatch call, along the result of the
    argument loop. *)
Lemma main_dispatch
    (env : gmap string string) (pid : Z) (world : Oracle)
    (moduleDir cwd : string) (existsSync : string -> bool)
    (argv : list string) (tr : list Call) :
  arrayIncludes (drop 2 argv) "--help" || arrayIncludes (drop 2 argv) "-h" = false ->
  arrayIncludes (drop 2 argv) "--list-sessions" = false ->
  exists options calls,
    Cli.parseLoop world (drop 2 argv) Cli.initialOptions tr = (inr options, tr ++ calls) /\
    Forall (fun c => c ∈ currentQueries) calls /\
    let name := default "" (Cli.session options) in
    let notifier := constructor moduleDir cwd existsSync None in
    Cli.main env pid world moduleDir cwd existsSync argv tr =
      if negb (truthy (Cli.message options)) then (inr messageRequired, tr ++ calls)
      else if truthy (Cli.session options)
              && negb (arrayIncludes (sessionsAt world (tr ++ calls)) name)
      then (inr (sessionMissing name
                   (sessionsAt world (tr ++ calls ++ [listSessionsCall]))),
            tr ++ calls ++ [listSessionsCall; listSessionsCall])
      else
        let '(r, tr') :=
          sendNotification env pid world notifier (Cli.toNotificationOptions options)
            (if truthy (Cli.session options)
             then tr ++ calls ++ [listSessionsCall] else tr ++ calls) in
        (inr match r with
             | inr _ => notificationSent
             | inl error =>
                 {| Cli.exitCode := 1; Cli.logged := [];
                    Cli.errors :=
                      ["Failed to send notification: " +:+ error_message error] |}
             end, tr').
Proof.
  intros Hhelp Hlist.
  destruct (parseLoop_calls world (length (drop 2 argv)) (drop 2 argv)
              Cli.initialOptions tr) as (options & calls & E & Hq & _); [done|].
  exists options, calls. split; [exact E|]. split; [exact Hq|]. cbv zeta.
  unfold Cli.main. rewrite Hhelp, Hlist. unfold bind at 1. rewrite E.
  destruct (truthy (Cli.message options)); cbn [negb]; [|reflexivity].
  destruct (truthy (Cli.session options)); cbn [andb].
  - unfold bind at 1. rewrite sessionExists_run.
    destruct (arrayIncludes (sessionsAt world (tr ++ calls)) _); cbn [negb].
    + unfold try_catch, bind, ret. rewrite <- app_assoc.
      destruct (sendNotification _ _ _ _ _ _) as [[e|[]] tr']; reflexivity.
    + unfold bind. rewrite listSessions_run. unfold ret, sessionMissing.
      by rewrite <- !app_assoc.
  - unfold bind at 1, ret at 1. cbn [negb].
    unfold try_catch, bind, ret.
    destruct (sendNotification _ _ _ _ _ _) as [[e|[]] tr']; reflexivity.
Qed.



(** X21: a help option anywhere among the arguments, even as the value
    of another option, makes [main] print the usage and exit with 0
    without awaiting any command: no multiplexer query, no terminal
    resolution, no launch.  Otherwise [--list-sessions] makes it await
    the one [list-sessions] query and no other command, print the
    header and the names found (none when the query fails) and exit
    with 0, whatever else is given.  (The [git] commands that the
    constructor starts without awaiting them are not among the commands
    recorded.) *)
Theorem main_help_and_list_sessions
    (env : gmap string string) (pid : Z) (world : Oracle)
    (moduleDir cwd : string) (existsSync : string -> bool)
    (argv : list string) (tr : list Call) :
  ("--help" ∈ drop 2 argv \/ "-h" ∈ drop 2 argv ->
     Cli.main env pid world moduleDir cwd existsSync argv tr
       = (inr {| Cli.exitCode := 0; Cli.logged := [Cli.usage]; Cli.errors := [] |}, tr)) /\
  ("--help" ∉ drop 2 argv -> "-h" ∉ drop 2 argv -> "--list-sessions" ∈ drop 2 argv ->
     Cli.main env pid world moduleDir cwd existsSync argv tr
       = (inr {| Cli.exitCode := 0;
                 Cli.logged := "Available tmux sessions:"
                                 :: map (fun s => "  " +:+ s) (sessionsAt world tr);
                 Cli.errors := [] |}, tr ++ [listSessionsCall])).
Proof.
  unfold Cli.main. rewrite !arrayIncludes_elem_of. split.
  - intros [H | H]; [rewrite (bool_decide_eq_true_2 _ H) | ].
    + reflexivity.
    + rewrite (bool_decide_eq_true_2 _ H), orb_true_r. reflexivity.
  - intros H1 H2 H3.
    rewrite (bool_decide_eq_false_2 _ H1), (bool_decide_eq_false_2 _ H2),
      (bool_decide_eq_true_2 _ H3). cbn [orb].
    unfold bind. by rewrite listSessions_run.
Qed.

Lemma main_help_and_list_sessions_witness :
  Cli.main ∅ 77 worldDown "/opt/pkg/dist" "/Users/dev/work" (fun _ => false)
    ["node"; "cli.js"; "-m"; "--help"] []
    = (inr {| Cli.exitCode := 0; Cli.logged := [Cli.usage]; Cli.errors := [] |}, []) /\
  Cli.main ∅ 77 worldDown "/opt/pkg/dist" "/Users/dev/work" (fun _ => false)
    ["node"; "cli.js"; "--list-sessions"; "-m"; "done"] []
    = (inr {| Cli.exitCode := 0;
              Cli.logged := "Available tmux sessions:"
                              :: map (fun s => "  " +:+ s) (sessionsAt worldDown []);
              Cli.errors := [] |}, [] ++ [listSessionsCall]).
Proof.
  split.
  - apply (main_help_and_list_sessions ∅ 77 worldDown "/opt/pkg/dist" "/Users/dev/work"
             (fun _ => false) ["node"; "cli.js"; "-m"; "--help"] []).
    left. cbn [drop]. in_list.
  - apply (main_help_and_list_sessions ∅ 77 worldDown "/opt/pkg/dist" "/Users/dev/work"
             (fun _ => false) ["node"; "cli.js"; "--list-sessions"; "-m"; "done"] []);
      cbn [drop]; rewrite ?not_elem_of_cons;
      try (repeat split; try discriminate; apply not_elem_of_nil).
    in_list.
Defined.

(** X22: called with a message and a session that the multiplexer does
    not list, [main] exits with 1, naming the missing session on the
    error stream and the available sessions, if any, on the output.
    The commands it awaits are exactly two [list-sessions] queries: the
    terminal resolver is not invoked and [/usr/bin/open] is not run.
    (The [git] commands that the constructor starts without awaiting
    them are not among the commands recorded.) *)
Theorem main_unknown_session
    (env : gmap string string) (pid : Z) (world : Oracle)
    (moduleDir cwd : string) (existsSync : string -> bool)
    (node script text name : string) (tr : list Call) :
  let args := ["-m"; text; "-s"; name] in
  arrayIncludes args "--help" || arrayIncludes args "-h" = false ->
  arrayIncludes args "--list-sessions" = false ->
  text <> "" -> name <> "" ->
  name ∉ sessionsAt world tr ->
  Cli.main env pid world moduleDir cwd existsSync (node :: script :: args) tr
    = (inr (sessionMissing name (sessionsAt world (tr ++ [listSessionsCall]))),
       tr ++ [listSessionsCall; listSessionsCall]).
Proof.
  cbv zeta. intros Hhelp Hlist Htext Hname Hnot.
  destruct (main_dispatch env pid world moduleDir cwd existsSync
              (node :: script :: ["-m"; text; "-s"; name]) tr Hhelp Hlist)
    as (options & calls & Hparse & _ & ->).
  cbn [drop] in Hparse. cbn in Hparse. unfold ret in Hparse.
  injection Hparse as <- Hcalls.
  assert (calls = []) as -> by (by eapply app_inv_head; rewrite app_nil_r).
  cbn [Cli.message Cli.session default from_option id].
  apply truthy_Some_nonempty in Htext, Hname. rewrite Htext, Hname.
  rewrite app_nil_r. cbn [negb andb app].
  by rewrite arrayIncludes_elem_of, bool_decide_eq_false_2.
Qed.

Lemma main_unknown_session_witness :
  Cli.main ∅ 77 worldTwoSessions "/opt/pkg/dist" "/Users/dev/work" (fun _ => false)
    ["node"; "cli.js"; "-m"; "done"; "-s"; "dev"] []
    = (inr (sessionMissing "dev" (sessionsAt worldTwoSessions ([] ++ [listSessionsCall]))),
       [] ++ [listSessionsCall; listSessionsCall]).
Proof.
  apply (main_unknown_session ∅ 77 worldTwoSessions "/opt/pkg/dist" "/Users/dev/work"
           (fun _ => false) "node" "cli.js" "done" "dev" []).
  - reflexivity.
  - reflexivity.
  - discriminate.
  - discriminate.
  - assert (sessionsAt worldTwoSessions [] = ["main"; "logs"]) as ->
      by (by vm_compute).
    rewrite !not_elem_of_cons. repeat split; try discriminate.
    apply not_elem_of_nil.
Defined.

(** ** The session directory, further *)

Lemma rev_app_app (s acc : string) :
  String.rev_app s acc = String.rev_app s "" +:+ acc.
Proof.
  revert acc. induction s as [|a s IH]; intros acc; cbn [String.rev_app]; [done|].
  rewrite (IH (String a acc)), (IH (String a "")).
  by rewrite string_app_assoc.
Qed.

Lemma rev_snoc (s : string) (c : ascii) :
  String.rev (s +:+ String c "") = String c (String.rev s).
Proof.
  unfold String.rev. induction s as [|a s IH]; [done|].
  rewrite app_String. cbn [String.rev_app].
  rewrite (rev_app_app _ (String a "")), IH, (rev_app_app s (String a "")).
  by rewrite app_String.
Qed.

Lemma rev_involutive (s : string) : String.rev (String.rev s) = s.
Proof.
  induction s as [|a s IH]; [done|].
  unfold String.rev at 2. cbn [String.rev_app]. rewrite rev_app_app.
  fold (String.rev s). by rewrite rev_snoc, IH.
Qed.

Lemma trimEnd_ends_visible (s : string) (c : ascii) :
  is_ws c = false -> trimEnd (s +:+ String c "") = s +:+ String c "".
Proof.
  intros Hc. unfold trimEnd. rewrite rev_snoc. cbn [trimStart]. rewrite Hc.
  by rewrite <- rev_snoc, rev_involutive.
Qed.

Lemma trimEnd_ws (s : string) (c : ascii) :
  is_ws c = true -> trimEnd (s +:+ String c "") = trimEnd s.
Proof. intros Hc. unfold trimEnd. rewrite rev_snoc. cbn [trimStart]. by rewrite Hc. Qed.

Lemma nonempty_snoc (s : string) :
  s <> "" -> exists s' c, s = s' +:+ String c "".
Proof.
  induction s as [|a s IH]; [done|]. intros _.
  destruct s as [|b s].
  - by exists "", a.
  - destruct IH as (s' & c & ->); [done|]. by exists (String a s'), c.
Qed.

Lemma split_visible (x : string) :
  allChars visible x = true -> split "010" x = [x].
Proof.
  induction x as [|c x IH]; [done|]. cbn [allChars split].
  intros [Hc Hx]%andb_true_iff.
  destruct (Ascii.eqb_spec c "010") as [->|_]; [done|]. by rewrite IH.
Qed.

Lemma split_visible_line (x rest : string) :
  allChars visible x = true ->
  split "010" (x +:+ String "010" rest) = x :: split "010" rest.
Proof.
  induction x as [|c x IH]; [done|]. cbn [allChars].
  intros [Hc Hx]%andb_true_iff. rewrite app_String. cbn [split].
  destruct (Ascii.eqb_spec c "010") as [->|_]; [done|]. by rewrite IH.
Qed.

Lemma split_join_names (names : list string) :
  names <> [] ->
  Forall (fun name => allChars visible name = true) names ->
  split "010" (join nl names) = names.
Proof.
  induction names as [|x names IH]; [done|]. intros _ Hall.
  apply Forall_cons in Hall as [Hx Hall].
  destruct names as [|y names]; [by apply split_visible|].
  cbn [join]. unfold nl at 1. rewrite app_String, app_empty_l.
  rewrite split_visible_line by done. f_equal. by apply IH.
Qed.

Lemma trim_report (names : list string) :
  Forall (fun name => name <> "" /\ allChars visible name = true) names ->
  trim (join nl names +:+ nl) = join nl names.
Proof.
  intros Hall. destruct names as [|x names].
  { by vm_compute. }
  assert (exists c rest, join nl (x :: names) = String c rest /\ is_ws c = false)
    as (c & rest & Ehead & Hc).
  { apply Forall_cons in Hall as [[Hx Hvis] _].
    destruct x as [|c x]; [done|]. cbn [allChars] in Hvis.
    apply andb_true_iff in Hvis as [Hc _]. apply negb_true_iff in Hc.
    destruct names; [by exists c, x|].
    cbn [join]. rewrite app_String. by eexists _, _. }
  assert (exists body d, join nl (x :: names) = body +:+ String d "" /\ is_ws d = false)
    as (body & d & Etail & Hd).
  { clear Ehead Hc c rest. revert x Hall.
    induction names as [|y names IH]; intros x Hall.
    - apply Forall_cons in Hall as [[Hx Hvis] _].
      destruct (nonempty_snoc x Hx) as (x' & d & ->).
      rewrite allChars_app in Hvis. apply andb_true_iff in Hvis as [_ Hd].
      cbn [allChars] in Hd. rewrite andb_true_r in Hd. apply negb_true_iff in Hd.
      by exists x', d.
    - apply Forall_cons in Hall as [_ Hall].
      destruct (IH y Hall) as (body & d & E & Hd).
      cbn [join] in *. rewrite E.
      exists (x +:+ nl +:+ body), d. by rewrite !string_app_assoc. }
  unfold trim. rewrite Ehead, app_String. cbn [trimStart]. rewrite Hc.
  rewrite <- app_String, <- Ehead. unfold nl at 2.
  rewrite trimEnd_ws by done. rewrite Etail. by apply trimEnd_ends_visible.
Qed.

Lemma printable_visible (name : string) :
  allChars printable name = true -> allChars visible name = true.
Proof.
  apply allChars_impl. intros c. unfold printable, visible, is_ws.
  intros [H1 H2]%andb_true_iff. apply Nat.leb_le in H1, H2.
  apply negb_true_iff, orb_false_iff. split.
  - apply andb_false_iff. right. apply Nat.leb_gt. lia.
  - apply Nat.eqb_neq. lia.
Qed.

(** X23: when the multiplexer prints one session name per line, the
    names being non-empty and made of printable ASCII characters other
    than the space, [listSessions] returns exactly these names in the
    printed order, and [sessionExists] holds of exactly these names. *)
Theorem listSessions_reports_names
    (world : Oracle) (names : list string) (tr : list Call) :
  Forall (fun name => name <> "" /\ allChars printable name = true) names ->
  outcome world "tmux" ["list-sessions"; "-F"; "#{session_name}"] tr
    = inr (join nl names +:+ nl) ->
  listSessions world tr = (inr names, tr ++ [listSessionsCall]) /\
  forall name,
    sessionExists world name tr
      = (inr (bool_decide (name ∈ names)), tr ++ [listSessionsCall]).
Proof.
  intros Hprintable Hout.
  assert (Forall (fun name => name <> "" /\ allChars visible name = true) names)
    as Hall.
  { eapply Forall_impl; [exact Hprintable|].
    intros name [Hne Hp]. split; [exact Hne | by apply printable_visible]. }
  assert (sessionsAt world tr = names) as Hnames.
  { unfold sessionsAt. rewrite Hout, trim_report by done.
    destruct names as [|x names]; [done|].
    rewrite split_join_names; [|done|].
    - unfold filterBoolean. apply forallb_filter_id. apply forallb_forall.
      intros name Hin%list_elem_of_In. rewrite Forall_forall in Hall.
      destruct (Hall name Hin) as [Hne _].
      by destruct (String.eqb_spec name "").
    - eapply Forall_impl; [exact Hall|]. by intros ? [_ ?]. }
  split.
  - by rewrite listSessions_run, Hnames.
  - intros name. by rewrite sessionExists_run, Hnames, arrayIncludes_elem_of.
Qed.

Lemma listSessions_reports_names_witness :
  listSessions worldTwoSessions [] = (inr ["main"; "logs"], [] ++ [listSessionsCall]) /\
  sessionExists worldTwoSessions "logs" []
    = (inr (bool_decide ("logs" ∈ ["main"; "logs"])), [] ++ [listSessionsCall]).
Proof.
  destruct (listSessions_reports_names worldTwoSessions ["main"; "logs"] [])
    as [Hlist Hexists].
  - repeat constructor; discriminate.
  - reflexivity.
  - split; [exact Hlist | apply Hexists].
Defined.

(** X24: [getCurrentTmuxInfo] stops at the first query that fails: after
    a failed session query it asks neither for the window nor for the
    pane, and after a failed window query it does not ask for the
    pane. *)
Theorem getCurrentTmuxInfo_stops_at_failure (world : Oracle) (tr : list Call) :
  let q format := tmuxCall (displayArgs format) in
  (forall e, outcome world "tmux" (displayArgs "#{session_name}") tr = inl e ->
     getCurrentTmuxInfo world tr = (inr None, tr ++ [q "#{session_name}"])) /\
  (forall s e,
     outcome world "tmux" (displayArgs "#{session_name}") tr = inr s ->
     outcome world "tmux" (displayArgs "#{window_index}") (tr ++ [q "#{session_name}"])
       = inl e ->
     getCurrentTmuxInfo world tr
       = (inr None, tr ++ [q "#{session_name}"; q "#{window_index}"])).
Proof.
  cbv zeta.
  unfold getCurrentTmuxInfo, try_catch, bind, tmuxDisplay, runCommand, ret, tmuxCall.
  split.
  - by intros e ->.
  - intros s e -> ->. by rewrite <- app_assoc.
Qed.

Lemma getCurrentTmuxInfo_stops_at_failure_witness :
  getCurrentTmuxInfo worldDown []
    = (inr None, [] ++ [tmuxCall (displayArgs "#{session_name}")]).
Proof.
  destruct (getCurrentTmuxInfo_stops_at_failure worldDown []) as [H _].
  apply (H (Error "spawn tmux ENOENT")). reflexivity.
Defined.

(** X25: the order of the options decides between the current location
    and a named session.  When the current location is known, a
    [--current-tmux] after [-s name] replaces the named session by the
    current one; before it, the named session is kept, with the window
    and the pane of the current location. *)
Theorem parseLoop_current_tmux_order
    (world : Oracle) (name : string) (o : Cli.CliOptions) (tr tr1 : list Call)
    (current : TmuxInfo) :
  getCurrentTmuxInfo world tr = (inr (Some current), tr1) ->
  (exists after,
     Cli.parseLoop world ["-s"; name; "--current-tmux"] o tr = (inr after, tr1) /\
     Cli.session after = Some (ti_session current) /\
     Cli.window after = Some (ti_window current) /\
     Cli.pane after = Some (ti_pane current)) /\
  (exists before,
     Cli.parseLoop world ["--current-tmux"; "-s"; name] o tr = (inr before, tr1) /\
     Cli.session before = Some name /\
     Cli.window before = Some (ti_window current) /\
     Cli.pane before = Some (ti_pane current)).
Proof.
  intros Hcurrent. split.
  - eexists. cbn. unfold bind. rewrite Hcurrent. cbn. by repeat split.
  - eexists. cbn. unfold bind. rewrite Hcurrent. cbn. by repeat split.
Qed.

Lemma parseLoop_current_tmux_order_witness :
  exists before,
    Cli.parseLoop worldTmuxDev ["--current-tmux"; "-s"; "logs"] Cli.initialOptions []
      = (inr before, currentQueries) /\
    Cli.session before = Some "logs" /\
    Cli.window before = Some (ti_window {| ti_session := "dev"; ti_window := "1";
                                           ti_pane := "0" |}) /\
    Cli.pane before = Some (ti_pane {| ti_session := "dev"; ti_window := "1";
                                       ti_pane := "0" |}).
Proof.
  apply (parseLoop_current_tmux_order worldTmuxDev "logs" Cli.initialOptions []
           currentQueries {| ti_session := "dev"; ti_window := "1"; ti_pane := "0" |}).
  by vm_compute.
Defined.

(** X26: the payload that the native program attaches to the
    notification holds the session when one was given, the window and
    the pane only beside a session, the terminal whenever one was
    given, and no other key. *)
Theorem userInfo_lookup (a : MacOSNotifyMCP.Arguments) :
  MacOSNotifyMCP.userInfo a !! "session" = MacOSNotifyMCP.session a /\
  MacOSNotifyMCP.userInfo a !! "window"
    = (MacOSNotifyMCP.session a ≫= fun _ => MacOSNotifyMCP.window a) /\
  MacOSNotifyMCP.userInfo a !! "pane"
    = (MacOSNotifyMCP.session a ≫= fun _ => MacOSNotifyMCP.pane a) /\
  MacOSNotifyMCP.userInfo a !! "terminal" = MacOSNotifyMCP.terminal a /\
  forall key, key ∉ payloadKeys -> MacOSNotifyMCP.userInfo a !! key = None.
Proof.
  unfold MacOSNotifyMCP.userInfo, payloadKeys.
  destruct (MacOSNotifyMCP.session a) as [s|], (MacOSNotifyMCP.window a) as [w|],
    (MacOSNotifyMCP.pane a) as [q|], (MacOSNotifyMCP.terminal a) as [t|];
    (split; [by vm_compute|]; split; [by vm_compute|];
     split; [by vm_compute|]; split; [by vm_compute|]);
    intros key Hkey; rewrite !not_elem_of_cons in Hkey;
    destruct Hkey as (H1 & H2 & H3 & H4 & _);
    by rewrite ?lookup_insert_ne, ?lookup_singleton_ne, ?lookup_empty.
Qed.

Lemma userInfo_lookup_witness :
  MacOSNotifyMCP.userInfo
    {| MacOSNotifyMCP.title := "Build"; MacOSNotifyMCP.message := "done";
       MacOSNotifyMCP.session := None; MacOSNotifyMCP.window := Some "1";
       MacOSNotifyMCP.pane := None; MacOSNotifyMCP.sound := "Glass";
       MacOSNotifyMCP.terminal := Some "iTerm2" |} !! "sound" = None.
Proof.
  apply userInfo_lookup. unfold payloadKeys. rewrite !not_elem_of_cons.
  repeat split; try discriminate. apply not_elem_of_nil.
Defined.
